(** * 49er sailing platform: the TypeScript domain, repository and hook layers

    A shallow embedding of the React/TypeScript frontend
    (frontend/src/domain, frontend/src/infrastructure/api/repositories,
    frontend/src/application/hooks) and the properties its specification
    states about it. *)

From Stdlib Require Import QArith Qabs Lqa.
From Stdlib Require Import Floats.
From stdpp Require Import gmap strings list.

Open Scope string_scope.

(** ** JavaScript values *)

(** A JavaScript [number].  Finite values are exact rationals: rounding,
    overflow and the sign of zero are not modelled.  The two infinities and
    NaN are kept, because the comparisons of the validation code treat them
    differently from finite values.  The properties stated over [number]
    are comparisons and bounds; the value an average returns is stated over
    binary64 values, in [Binary64] below. *)
Inductive number : Type :=
| Fin (q : Q)
| PInf
| NInf
| NaN.

Definition Qlt_bool (x y : Q) : bool := negb (Qle_bool y x).

Module JS.

(** [a < b] *)
Definition lt (a b : number) : bool :=
  match a, b with
  | NaN, _ | _, NaN => false
  | Fin p, Fin q => Qlt_bool p q
  | Fin _, PInf => true
  | Fin _, NInf => false
  | PInf, _ => false
  | NInf, NInf => false
  | NInf, _ => true
  end.

(** [a > b] *)
Definition gt (a b : number) : bool := lt b a.

(** [a <= b] *)
Definition le (a b : number) : bool :=
  match a, b with
  | NaN, _ | _, NaN => false
  | Fin p, Fin q => Qle_bool p q
  | Fin _, PInf => true
  | Fin _, NInf => false
  | PInf, PInf => true
  | PInf, _ => false
  | NInf, _ => true
  end.

(** [a >= b] *)
Definition ge (a b : number) : bool := le b a.

(** [a === b] on numbers *)
Definition strict_eq (a b : number) : bool :=
  match a, b with
  | Fin p, Fin q => Qeq_bool p q
  | PInf, PInf | NInf, NInf => true
  | _, _ => false
  end.

(** [a + b] *)
Definition add (a b : number) : number :=
  match a, b with
  | NaN, _ | _, NaN => NaN
  | Fin p, Fin q => Fin (p + q)
  | PInf, NInf | NInf, PInf => NaN
  | PInf, _ | _, PInf => PInf
  | NInf, _ | _, NInf => NInf
  end.

(** [a / b] *)
Definition div (a b : number) : number :=
  match a, b with
  | NaN, _ | _, NaN => NaN
  | Fin p, Fin q =>
      if Qeq_bool q 0 then
        (if Qeq_bool p 0 then NaN else if Qlt_bool 0 p then PInf else NInf)
      else Fin (p / q)
  | Fin _, _ => Fin 0
  | PInf, Fin q => if Qlt_bool q 0 then NInf else PInf
  | NInf, Fin q => if Qlt_bool q 0 then PInf else NInf
  | _, _ => NaN
  end.

(** The number of an array length. *)
Definition of_nat (n : nat) : number := Fin (inject_Z (Z.of_nat n)).

(** Strings are the UTF-8 encodings of JavaScript strings (a lone
    surrogate as the three bytes of its code point).  White space for
    [trim] is WhiteSpace and LineTerminator of ECMAScript: TAB, LF, VT, FF,
    CR, SP in one byte; U+00A0 in two; U+1680, U+2000 to U+200A, U+2028,
    U+2029, U+202F, U+205F, U+3000 and U+FEFF in three.  No other byte of
    an encoding is the first byte of one of these. *)
Definition is_whitespace1 (a : Ascii.ascii) : bool :=
  let n := Ascii.nat_of_ascii a in
  (Nat.eqb n 9 || Nat.eqb n 10 || Nat.eqb n 11 || Nat.eqb n 12
   || Nat.eqb n 13 || Nat.eqb n 32)%bool.

Definition is_whitespace2 (a b : Ascii.ascii) : bool :=
  (Nat.eqb (Ascii.nat_of_ascii a) 194 && Nat.eqb (Ascii.nat_of_ascii b) 160)%bool.

Definition is_whitespace3 (a b c : Ascii.ascii) : bool :=
  let x := Ascii.nat_of_ascii a in
  let y := Ascii.nat_of_ascii b in
  let z := Ascii.nat_of_ascii c in
  ((Nat.eqb x 225 && Nat.eqb y 154 && Nat.eqb z 128)
   || (Nat.eqb x 226 && Nat.eqb y 128
       && ((Nat.leb 128 z && Nat.leb z 138)
           || Nat.eqb z 168 || Nat.eqb z 169 || Nat.eqb z 175))
   || (Nat.eqb x 226 && Nat.eqb y 129 && Nat.eqb z 159)
   || (Nat.eqb x 227 && Nat.eqb y 128 && Nat.eqb z 128)
   || (Nat.eqb x 239 && Nat.eqb y 187 && Nat.eqb z 191))%bool.

Fixpoint trimStart (s : string) : string :=
  match s with
  | EmptyString => s
  | String a r1 =>
      if is_whitespace1 a then trimStart r1
      else match r1 with
           | EmptyString => s
           | String b r2 =>
               if is_whitespace2 a b then trimStart r2
               else match r2 with
                    | EmptyString => s
                    | String c r3 =>
                        if is_whitespace3 a b c then trimStart r3 else s
                    end
           end
  end.

Definition is_empty (s : string) : bool :=
  match s with EmptyString => true | String _ _ => false end.

Fixpoint trimEnd (s : string) : string :=
  match s with
  | EmptyString => EmptyString
  | String a r1 =>
      if is_whitespace1 a
      then (if is_empty (trimEnd r1) then EmptyString else String a (trimEnd r1))
      else match r1 with
           | EmptyString => s
           | String b r2 =>
               if is_whitespace2 a b
               then (if is_empty (trimEnd r2) then EmptyString
                     else String a (String b (trimEnd r2)))
               else match r2 with
                    | EmptyString => String a (trimEnd r1)
                    | String c r3 =>
                        if is_whitespace3 a b c
                        then (if is_empty (trimEnd r3) then EmptyString
                              else String a (String b (String c (trimEnd r3))))
                        else String a (trimEnd r1)
                    end
           end
  end.

Definition trim (s : string) : string := trimEnd (trimStart s).

(** The truthiness of a number: 0 and NaN are falsy. *)
Definition truthy (a : number) : bool :=
  match a with
  | Fin q => negb (Qeq_bool q 0)
  | NaN => false
  | _ => true
  end.

(** [!s] for a string: only the empty string is falsy. *)
Definition not_str (s : string) : bool := Nat.eqb (String.length s) 0.

(** [a || b] for an optional string [a]: [undefined] and [""] are falsy. *)
Definition or_str (a : option string) (b : string) : string :=
  match a with
  | Some s => if not_str s then b else s
  | None => b
  end.

(** [s.length]: the number of UTF-16 code units.  A character of one to
    three bytes is one unit, a character of four bytes is two, and a
    continuation byte counts with its first byte. *)
Definition units (a : Ascii.ascii) : nat :=
  let n := Ascii.nat_of_ascii a in
  if Nat.ltb n 128 then 1 else if Nat.ltb n 192 then 0
  else if Nat.ltb n 240 then 1 else 2.

Fixpoint length (s : string) : nat :=
  match s with
  | EmptyString => 0
  | String a r => units a + length r
  end.

(** A value of type [any], as far as [||] and the conversion to a string
    see it: [undefined], a string, or any other value with its truthiness
    and the string [String(v)] it converts to ([""] for an empty array,
    ["[object Object]"] for an object). *)
Inductive any : Type :=
| undefined
| str (s : string)
| value (truthy : bool) (shown : string).

Definition to_boolean (v : any) : bool :=
  match v with
  | undefined => false
  | str s => negb (not_str s)
  | value truthy _ => truthy
  end.

Definition to_string (v : any) : string :=
  match v with
  | undefined => "undefined"
  | str s => s
  | value _ shown => shown
  end.

(** [String(a || b)] for a string [b]. *)
Definition or_any (a : any) (b : string) : string :=
  if to_boolean a then to_string a else b.

End JS.

(** The value carried by a thrown [Error]. *)
Record Error : Type := mkError { message : string }.

(** ** Asynchronous computations

    An [async] function is a tree of [await]ed calls to a collaborator whose
    operations are the events [E].  Every awaited promise settles: it is
    resolved with a value or rejected with an error, and the continuation
    receives either (a [try]/[catch] around the [await] inspects it).  A
    function that returns [Promise<T>] is an [Async E (result T)]. *)
Inductive result (A : Type) : Type :=
| Resolved (a : A)
| Rejected (e : Error).
Arguments Resolved {A} a.
Arguments Rejected {A} e.

Inductive Async (E : Type -> Type) (A : Type) : Type :=
| Done (a : A)
| Await (X : Type) (e : E X) (k : result X -> Async E A).
Arguments Done {E A} a.
Arguments Await {E A X} e k.

Fixpoint bind {E A B} (m : Async E A) (k : A -> Async E B) : Async E B :=
  match m with
  | Done a => k a
  | Await e k' => Await e (fun r => bind (k' r) k)
  end.

(** [return x] and [throw new Error(msg)] inside an async function. *)
Definition ret {E A} (a : A) : Async E (result A) := Done (Resolved a).
Definition throw {E A} (msg : string) : Async E (result A) :=
  Done (Rejected (mkError msg)).

(** [return collaborator.op(args)]: the promise of the call is the result. *)
Definition call {E X} (e : E X) : Async E (result X) := Await e Done.

(** [x = await m; k x] outside a [try]: a rejection propagates. *)
Definition await {E A B} (m : Async E (result A)) (k : A -> Async E (result B))
  : Async E (result B) :=
  bind m (fun r => match r with
                   | Resolved a => k a
                   | Rejected e => Done (Rejected e)
                   end).

(** Replace the collaborator by an implementation of its operations. *)
Fixpoint interp {E F A} (h : forall X, E X -> Async F (result X)) (m : Async E A)
  : Async F A :=
  match m with
  | Done a => Done a
  | Await e k => bind (h _ e) (fun r => interp h (k r))
  end.

(** Run against an environment that settles every outermost call. *)
Fixpoint run {E W A} (h : forall X, E X -> W -> result X * W)
    (m : Async E A) (w : W) : A * W :=
  match m with
  | Done a => (a, w)
  | Await e k => let '(r, w') := h _ e w in run h (k r) w'
  end.

(** The number of collaborator calls made on a run. *)
Fixpoint calls {E W A} (h : forall X, E X -> W -> result X * W)
    (m : Async E A) (w : W) : nat :=
  match m with
  | Done _ => 0
  | Await e k => let '(r, w') := h _ e w in S (calls h (k r) w')
  end.

(** ** domain/types/common.types.ts *)

Inductive WaveType : Type := Flat | Choppy | Medium | Large.
Inductive EquipmentType : Type :=
  Mainsail | Jib | Gennaker | Mast | Boom | Rudder | Centerboard | Other.
(** ['Medium'] of TensionLevel is [MediumTension]: the name [Medium] is
    taken by WaveType. *)
Inductive TensionLevel : Type := Loose | MediumTension | Tight.

Definition WaveType_eqb (a b : WaveType) : bool :=
  match a, b with
  | Flat, Flat | Choppy, Choppy | Medium, Medium | Large, Large => true
  | _, _ => false
  end.

Module SessionResponse.
Record t : Type := mk {
  id : string;
  date : string;
  location : string;
  wind_speed_min : number;
  wind_speed_max : number;
  wave_type : WaveType;
  wave_direction : string;
  hours_on_water : number;
  performance_rating : number;
  notes : option string;
  created_by : string;
  created_at : string;
  updated_at : string
}.
End SessionResponse.

Module EquipmentResponse.
Record t : Type := mk {
  id : string;
  name : string;
  type : EquipmentType;
  manufacturer : string;
  model : string;
  purchase_date : option string;
  notes : option string;
  active : bool;
  wear : number;
  owner_id : string;
  created_at : string;
  updated_at : string;
  age_in_days : option number;
  needs_replacement : option bool
}.
End EquipmentResponse.

Module EquipmentSettingsResponse.
Record t : Type := mk {
  id : string;
  session_id : string;
  forestay_tension : number;
  shroud_tension : number;
  mast_rake : number;
  main_tension : number;
  cap_tension : number;
  cap_hole : number;
  lowers_scale : number;
  mains_scale : number;
  pre_bend : number;
  jib_halyard_tension : TensionLevel;
  cunningham : number;
  outhaul : number;
  vang : number;
  created_at : string
}.
End EquipmentSettingsResponse.

Module EquipmentStatisticsResponse.
Record t : Type := mk {
  total_equipment : number;
  active_equipment : number;
  retired_equipment : number;
  equipment_by_type : gmap string number;
  oldest_equipment : option string;
  newest_equipment : option string;
  most_worn_equipment : option (gmap string number)
}.
End EquipmentStatisticsResponse.

(** ** application/dto/SessionDTO.ts *)

Module CreateSessionDTO.
Record t : Type := mk {
  date : string;
  location : string;
  wind_speed_min : number;
  wind_speed_max : number;
  wave_type : WaveType;
  wave_direction : string;
  hours_on_water : number;
  performance_rating : number;
  notes : option string;
  equipment_ids : option (list string)
}.
End CreateSessionDTO.

(** An optional property that is absent reads as [undefined]: [None]. *)
Module UpdateSessionDTO.
Record t : Type := mk {
  date : option string;
  location : option string;
  wind_speed_min : option number;
  wind_speed_max : option number;
  wave_type : option WaveType;
  wave_direction : option string;
  hours_on_water : option number;
  performance_rating : option number;
  notes : option string;
  equipment_ids : option (list string)
}.
End UpdateSessionDTO.

(** The [data: any] argument of [createEquipmentSettings]: the numeric
    properties of the object by name ([data[tension]], [data.mast_rake]),
    and the one property of CreateEquipmentSettingsDTO that is not a
    number. *)
Module SettingsData.
Record t : Type := mk {
  numbers : gmap string number;
  jib_halyard_tension : option TensionLevel
}.
End SettingsData.

(** ** domain/entities/Session.ts *)

Module Session.
Record t : Type := mk {
  id : string;
  date : string;
  location : string;
  windSpeedMin : number;
  windSpeedMax : number;
  waveType : WaveType;
  waveDirection : string;
  hoursOnWater : number;
  performanceRating : number;
  notes : option string;
  equipmentIds : list string;
  createdBy : string;
  createdAt : string;
  updatedAt : string
}.

Definition averageWindSpeed (this : t) : number :=
  JS.div (JS.add (windSpeedMin this) (windSpeedMax this)) (Fin 2).

Definition isHeavyWeather (this : t) : bool :=
  JS.gt (averageWindSpeed this) (Fin 20)
  || WaveType_eqb (waveType this) Large
  || WaveType_eqb (waveType this) Medium.

Definition isLightWeather (this : t) : bool :=
  JS.lt (averageWindSpeed this) (Fin 8)
  && (WaveType_eqb (waveType this) Flat || WaveType_eqb (waveType this) Choppy).

Definition isGoodPerformance (this : t) : bool :=
  JS.ge (performanceRating this) (Fin 4).

Definition isPoorPerformance (this : t) : bool :=
  JS.le (performanceRating this) (Fin 2).
End Session.

(** ** domain/entities/Equipment.ts *)

Module Equipment.
Record t : Type := mk {
  id : string;
  name : string;
  type : EquipmentType;
  manufacturer : string;
  model : string;
  purchaseDate : option string;
  notes : option string;
  active : bool;
  wear : number;
  ownerId : string;
  createdAt : string;
  updatedAt : string;
  ageInDays : option number;
  needsReplacement : option bool
}.

(** The assignment [this.active = b]. *)
Definition set_active (b : bool) (this : t) : t :=
  mk (id this) (name this) (type this) (manufacturer this) (model this)
     (purchaseDate this) (notes this) b (wear this) (ownerId this)
     (createdAt this) (updatedAt this) (ageInDays this) (needsReplacement this).

Definition isOld (this : t) (thresholdDays : number) : bool :=
  match ageInDays this with
  | Some a => if JS.truthy a then JS.gt a thresholdDays else false
  | None => false
  end.

Definition shouldReplace (this : t) (wearThreshold : number) : bool :=
  JS.gt (wear this) wearThreshold
  || match needsReplacement this with Some true => true | _ => false end.
End Equipment.

(** ** domain/entities/EquipmentSettings.ts *)

Module EquipmentSettings.
Record t : Type := mk {
  id : string;
  sessionId : string;
  forestayTension : number;
  shroudTension : number;
  mastRake : number;
  mainTension : number;
  capTension : number;
  capHole : number;
  lowersScale : number;
  mainsScale : number;
  preBend : number;
  jibHalyardTension : TensionLevel;
  cunningham : number;
  outhaul : number;
  vang : number;
  createdAt : string
}.

Definition TensionLevel_eqb (a b : TensionLevel) : bool :=
  match a, b with
  | Loose, Loose | MediumTension, MediumTension | Tight, Tight => true
  | _, _ => false
  end.

Definition isHeavyWeatherSetup (this : t) : bool :=
  JS.gt (forestayTension this) (Fin 7)
  && JS.gt (cunningham this) (Fin 6)
  && JS.gt (vang this) (Fin 7)
  && JS.gt (mainTension this) (Fin 6).

Definition isLightWeatherSetup (this : t) : bool :=
  JS.lt (forestayTension this) (Fin 4)
  && JS.lt (cunningham this) (Fin 3)
  && TensionLevel_eqb (jibHalyardTension this) Loose
  && JS.lt (mainTension this) (Fin 3).
End EquipmentSettings.

(** ** domain/repositories: the repository interfaces

    The operations a service awaits.  (The list, analytics and
    session-equipment queries, which no property below concerns, are left
    out.) *)

Inductive ISessionRepository : Type -> Type :=
| session_create (data : CreateSessionDTO.t) : ISessionRepository Session.t
| session_getById (id : string) : ISessionRepository (option Session.t)
| session_update (id : string) (data : UpdateSessionDTO.t) : ISessionRepository Session.t
| session_delete (id : string) : ISessionRepository bool
| session_createSettings (sessionId : string) (data : SettingsData.t)
    : ISessionRepository EquipmentSettings.t.

Inductive IEquipmentRepository : Type -> Type :=
| equipment_getById (id : string) : IEquipmentRepository (option Equipment.t)
| equipment_delete (id : string) : IEquipmentRepository bool
| equipment_retire (id : string) : IEquipmentRepository bool
| equipment_reactivate (id : string) : IEquipmentRepository bool
| equipment_getStatistics : IEquipmentRepository EquipmentStatisticsResponse.t.

(** ** domain/services/SessionService.ts *)

Module SessionService.

Definition createSession (data : CreateSessionDTO.t)
  : Async ISessionRepository (result Session.t) :=
  if (JS.not_str (CreateSessionDTO.location data)
      || Nat.eqb (String.length (JS.trim (CreateSessionDTO.location data))) 0)%bool
  then throw "Location is required"
  else if (JS.lt (CreateSessionDTO.wind_speed_min data) (Fin 0)
           || JS.lt (CreateSessionDTO.wind_speed_max data) (Fin 0))%bool
  then throw "Wind speeds cannot be negative"
  else if JS.gt (CreateSessionDTO.wind_speed_min data)
                (CreateSessionDTO.wind_speed_max data)
  then throw "Minimum wind speed cannot exceed maximum"
  else if (JS.le (CreateSessionDTO.hours_on_water data) (Fin 0)
           || JS.gt (CreateSessionDTO.hours_on_water data) (Fin 12))%bool
  then throw "Hours on water must be between 0 and 12"
  else if (JS.lt (CreateSessionDTO.performance_rating data) (Fin 1)
           || JS.gt (CreateSessionDTO.performance_rating data) (Fin 5))%bool
  then throw "Performance rating must be between 1 and 5"
  else call (session_create data).

Definition getSessionById (id : string)
  : Async ISessionRepository (result (option Session.t)) :=
  call (session_getById id).

Definition updateSession (id : string) (data : UpdateSessionDTO.t)
  : Async ISessionRepository (result Session.t) :=
  if match UpdateSessionDTO.wind_speed_min data,
           UpdateSessionDTO.wind_speed_max data with
     | Some lo, Some hi => JS.gt lo hi
     | _, _ => false
     end
  then throw "Minimum wind speed cannot exceed maximum"
  else if match UpdateSessionDTO.hours_on_water data with
          | Some h => (JS.le h (Fin 0) || JS.gt h (Fin 12))%bool
          | None => false
          end
  then throw "Hours on water must be between 0 and 12"
  else if match UpdateSessionDTO.performance_rating data with
          | Some r => (JS.lt r (Fin 1) || JS.gt r (Fin 5))%bool
          | None => false
          end
  then throw "Performance rating must be between 1 and 5"
  else call (session_update id data).

Definition deleteSession (id : string) : Async ISessionRepository (result bool) :=
  call (session_delete id).

Definition tensions : list string :=
  [ "forestay_tension"; "shroud_tension"; "main_tension";
    "cap_tension"; "lowers_scale"; "mains_scale";
    "cunningham"; "outhaul"; "vang" ].

(** The [for (const tension of tensions)] loop: the error of the first
    iteration that throws, if any. *)
Fixpoint check_tensions (ts : list string) (data : gmap string number)
  : option string :=
  match ts with
  | [] => None
  | tension :: rest =>
      match data !! tension with
      | Some v =>
          if (JS.lt v (Fin 0) || JS.gt v (Fin 10))%bool
          then Some (tension +:+ " must be between 0 and 10")
          else check_tensions rest data
      | None => check_tensions rest data
      end
  end.

Definition createEquipmentSettings (sessionId : string) (data : SettingsData.t)
  : Async ISessionRepository (result EquipmentSettings.t) :=
  match check_tensions tensions (SettingsData.numbers data) with
  | Some msg => throw msg
  | None =>
      if match SettingsData.numbers data !! "mast_rake" with
         | Some v => (JS.lt v (Fin (-5)) || JS.gt v (Fin 30))%bool
         | None => false
         end
      then throw "Mast rake must be between -5 and 30 degrees"
      else call (session_createSettings sessionId data)
  end.

(** The values of [condition: 'heavy' | 'light' | 'medium']; the [default]
    branch of the [switch] is not reached from typed code. *)
Inductive Condition : Type := heavy | light | medium.

Definition getSessionsByCondition (sessions : list Session.t) (condition : Condition)
  : list Session.t :=
  match condition with
  | heavy => List.filter Session.isHeavyWeather sessions
  | light => List.filter Session.isLightWeather sessions
  | medium =>
      List.filter (fun s => negb (Session.isHeavyWeather s)
                            && negb (Session.isLightWeather s)) sessions
  end.

Definition getTopRatedSessions (sessions : list Session.t) (minRating : number)
  : list Session.t :=
  List.filter (fun s => JS.ge (Session.performanceRating s) minRating) sessions.

Definition calculateAveragePerformance (sessions : list Session.t) : number :=
  if Nat.eqb (length sessions) 0 then Fin 0
  else
    let total :=
      fold_left (fun sum s => JS.add sum (Session.performanceRating s))
                sessions (Fin 0) in
    JS.div total (JS.of_nat (length sessions)).

Definition calculateTotalHours (sessions : list Session.t) : number :=
  fold_left (fun sum s => JS.add sum (Session.hoursOnWater s)) sessions (Fin 0).

End SessionService.

(** ** application/dto/EquipmentDTO.ts *)

Module CreateEquipmentDTO.
Record t : Type := mk {
  name : string;
  type : EquipmentType;
  manufacturer : string;
  model : string;
  purchase_date : option string;
  notes : option string
}.
End CreateEquipmentDTO.

Module UpdateEquipmentDTO.
Record t : Type := mk {
  name : option string;
  type : option EquipmentType;
  manufacturer : option string;
  model : option string;
  purchase_date : option string;
  notes : option string
}.
End UpdateEquipmentDTO.

(** The [create] and [update] operations of IEquipmentRepository. *)
Inductive IEquipmentRepositoryWrite : Type -> Type :=
| equipment_create (data : CreateEquipmentDTO.t) : IEquipmentRepositoryWrite Equipment.t
| equipment_update (id : string) (data : UpdateEquipmentDTO.t)
    : IEquipmentRepositoryWrite Equipment.t.

(** An EquipmentType is its name: the key [e.type] of a grouping. *)
Definition EquipmentType_name (t : EquipmentType) : string :=
  match t with
  | Mainsail => "Mainsail"
  | Jib => "Jib"
  | Gennaker => "Gennaker"
  | Mast => "Mast"
  | Boom => "Boom"
  | Rudder => "Rudder"
  | Centerboard => "Centerboard"
  | Other => "Other"
  end.

(** ** domain/services/EquipmentService.ts *)

Module EquipmentService.

Definition getEquipmentById (id : string)
  : Async IEquipmentRepository (result (option Equipment.t)) :=
  call (equipment_getById id).

Definition deleteEquipment (id : string) : Async IEquipmentRepository (result bool) :=
  call (equipment_delete id).

Definition retireEquipment (id : string) : Async IEquipmentRepository (result bool) :=
  call (equipment_retire id).

Definition reactivateEquipment (id : string) : Async IEquipmentRepository (result bool) :=
  call (equipment_reactivate id).

Definition getEquipmentStatistics
  : Async IEquipmentRepository (result EquipmentStatisticsResponse.t) :=
  call equipment_getStatistics.


Definition createEquipment (data : CreateEquipmentDTO.t)
  : Async IEquipmentRepositoryWrite (result Equipment.t) :=
  if (JS.not_str (CreateEquipmentDTO.name data)
      || Nat.eqb (String.length (JS.trim (CreateEquipmentDTO.name data))) 0)%bool
  then throw "Equipment name is required"
  else if Nat.ltb 100 (JS.length (CreateEquipmentDTO.name data))
  then throw "Equipment name is too long"
  else call (equipment_create data).

Definition updateEquipment (id : string) (data : UpdateEquipmentDTO.t)
  : Async IEquipmentRepositoryWrite (result Equipment.t) :=
  match UpdateEquipmentDTO.name data with
  | Some name =>
      if Nat.eqb (String.length (JS.trim name)) 0
      then throw "Equipment name cannot be empty"
      else if Nat.ltb 100 (JS.length name)
      then throw "Equipment name is too long"
      else call (equipment_update id data)
  | None => call (equipment_update id data)
  end.

Definition getEquipmentByWear (equipment : list Equipment.t) (maxWear : number)
  : list Equipment.t :=
  List.filter (fun e => JS.le (Equipment.wear e) maxWear) equipment.

(** [e.shouldReplace()]: the default [wearThreshold = 500]. *)
Definition getEquipmentNeedingReplacement (equipment : list Equipment.t)
  : list Equipment.t :=
  List.filter (fun e => Equipment.shouldReplace e (Fin 500)) equipment.

(** [thresholdDays: number = 730]: an absent argument is 730. *)
Definition getOldEquipment (equipment : list Equipment.t) (thresholdDays : option number)
  : list Equipment.t :=
  List.filter (fun e => Equipment.isOld e (default (Fin 730) thresholdDays)) equipment.

(** The [reduce] into a [Record<string, Equipment[]>]: a type seen for the
    first time gets a new array, and the equipment is pushed at the end of
    the array of its type. *)
Definition groupEquipmentByType (equipment : list Equipment.t)
  : gmap string (list Equipment.t) :=
  fold_left
    (fun (acc : gmap string (list Equipment.t)) e =>
       let key := EquipmentType_name (Equipment.type e) in
       match acc !! key with
       | None => <[ key := [e] ]> acc
       | Some group => <[ key := (group ++ [e])%list ]> acc
       end)
    equipment ∅.
End EquipmentService.

(** ** infrastructure/api: the HTTP client

    The requests the repositories await on [ApiClient.getInstance()], one
    event per method and response type. *)

Inductive ApiClient : Type -> Type :=
| api_get_session (url : string) : ApiClient SessionResponse.t
| api_post_session (url : string) (data : CreateSessionDTO.t) : ApiClient SessionResponse.t
| api_put_session (url : string) (data : UpdateSessionDTO.t) : ApiClient SessionResponse.t
| api_post_settings (url : string) (data : SettingsData.t)
    : ApiClient EquipmentSettingsResponse.t
| api_get_equipment (url : string) : ApiClient EquipmentResponse.t
| api_get_statistics (url : string) : ApiClient EquipmentStatisticsResponse.t
| api_patch (url : string) : ApiClient unit
| api_delete (url : string) : ApiClient unit.

(** config/api.config.ts *)
Module API_CONFIG.
Definition sessions_base : string := "/sessions".
Definition sessions_settings (id : string) : string :=
  "/sessions/" +:+ id +:+ "/settings".
Definition equipment_base : string := "/equipment".
Definition equipment_stats : string := "/equipment/analytics/stats".
Definition equipment_retire (id : string) : string :=
  "/equipment/" +:+ id +:+ "/retire".
Definition equipment_reactivate (id : string) : string :=
  "/equipment/" +:+ id +:+ "/reactivate".
End API_CONFIG.

(** The browser state the client layer touches. *)
Record Browser : Type := mkBrowser {
  localStorage : gmap string string;
  location_href : string
}.

(** infrastructure/storage/TokenStorage.ts *)
Module TokenStorage.
Definition TOKEN_KEY : string := "sailing_platform_token".
Definition removeToken (b : Browser) : Browser :=
  mkBrowser (delete TOKEN_KEY (localStorage b)) (location_href b).

Definition USER_KEY : string := "sailing_platform_user".
Definition setToken (token : string) (b : Browser) : Browser :=
  mkBrowser (<[ TOKEN_KEY := token ]> (localStorage b)) (location_href b).
Definition getToken (b : Browser) : option string := localStorage b !! TOKEN_KEY.
Definition removeUser (b : Browser) : Browser :=
  mkBrowser (delete USER_KEY (localStorage b)) (location_href b).
Definition clear (b : Browser) : Browser := removeUser (removeToken b).
End TokenStorage.

(** The failure axios hands to the response interceptor:
    [error.response?.status], [error.response?.data?.detail],
    [error.response?.data?.message] and [error.message].  The response body
    is of type [any], and so are its two properties. *)
Module AxiosError.
Record t : Type := mk {
  status : option nat;
  detail : JS.any;
  data_message : JS.any;
  error_message : string
}.
End AxiosError.

(** infrastructure/api/client/interceptors.ts: the response interceptor's
    error branch.  It rejects with [new Error(message)], whose message is
    the string the chosen value converts to; the status is not kept. *)
Module interceptors.
Definition onResponseError (error : AxiosError.t) (b : Browser) : Error * Browser :=
  let b' :=
    match AxiosError.status error with
    | Some 401 => mkBrowser (localStorage (TokenStorage.removeToken b)) "/login"
    | _ => b
    end in
  let msg :=
    JS.or_any (AxiosError.detail error)
      (JS.or_any (AxiosError.data_message error)
         (JS.or_str (Some (AxiosError.error_message error))
            "An unexpected error occurred")) in
  (mkError msg, b').
End interceptors.

(** What the backend answers to each request: a response body, or a
    failure (an HTTP error status, a timeout, no connectivity). *)
Definition Backend : Type := forall X, ApiClient X -> X + AxiosError.t.

(** Modelled from the spec: the methods of ApiClient
    (infrastructure/api/client/ApiClient.ts is not among the sources).
    "Network/HTTP errors propagate as thrown errors carrying a message
    derived from the response body's detail field when present, else a
    generic message": a request resolves with the response body, and a
    failure is rejected with the error of the response interceptor. *)
Definition apiClient (backend : Backend) (X : Type) (e : ApiClient X) (b : Browser)
  : result X * Browser :=
  match backend X e with
  | inl body => (Resolved body, b)
  | inr error =>
      let '(err, b') := interceptors.onResponseError error b in
      (Rejected err, b')
  end.

(** ** infrastructure/api/repositories/SessionRepository.ts *)

Module SessionRepository.

Definition basePath : string := API_CONFIG.sessions_base.

Definition mapToEntity (data : SessionResponse.t) : Session.t :=
  Session.mk
    (SessionResponse.id data)
    (SessionResponse.date data)
    (SessionResponse.location data)
    (SessionResponse.wind_speed_min data)
    (SessionResponse.wind_speed_max data)
    (SessionResponse.wave_type data)
    (SessionResponse.wave_direction data)
    (SessionResponse.hours_on_water data)
    (SessionResponse.performance_rating data)
    (SessionResponse.notes data)
    []
    (SessionResponse.created_by data)
    (SessionResponse.created_at data)
    (SessionResponse.updated_at data).

Definition mapSettingsToEntity (data : EquipmentSettingsResponse.t)
  : EquipmentSettings.t :=
  EquipmentSettings.mk
    (EquipmentSettingsResponse.id data)
    (EquipmentSettingsResponse.session_id data)
    (EquipmentSettingsResponse.forestay_tension data)
    (EquipmentSettingsResponse.shroud_tension data)
    (EquipmentSettingsResponse.mast_rake data)
    (EquipmentSettingsResponse.main_tension data)
    (EquipmentSettingsResponse.cap_tension data)
    (EquipmentSettingsResponse.cap_hole data)
    (EquipmentSettingsResponse.lowers_scale data)
    (EquipmentSettingsResponse.mains_scale data)
    (EquipmentSettingsResponse.pre_bend data)
    (EquipmentSettingsResponse.jib_halyard_tension data)
    (EquipmentSettingsResponse.cunningham data)
    (EquipmentSettingsResponse.outhaul data)
    (EquipmentSettingsResponse.vang data)
    (EquipmentSettingsResponse.created_at data).

Definition create (data : CreateSessionDTO.t) : Async ApiClient (result Session.t) :=
  await (call (api_post_session basePath data))
        (fun response => ret (mapToEntity response)).

(** The [catch] has no condition: every rejection of the request yields
    [null]. *)
Definition getById (id : string) : Async ApiClient (result (option Session.t)) :=
  bind (call (api_get_session (basePath +:+ "/" +:+ id)))
       (fun r => match r with
                 | Resolved response => ret (Some (mapToEntity response))
                 | Rejected error => ret None
                 end).

Definition update (id : string) (data : UpdateSessionDTO.t)
  : Async ApiClient (result Session.t) :=
  await (call (api_put_session (basePath +:+ "/" +:+ id) data))
        (fun response => ret (mapToEntity response)).

Definition delete (id : string) : Async ApiClient (result bool) :=
  await (call (api_delete (basePath +:+ "/" +:+ id))) (fun _ => ret true).

Definition createSettings (sessionId : string) (data : SettingsData.t)
  : Async ApiClient (result EquipmentSettings.t) :=
  await (call (api_post_settings (API_CONFIG.sessions_settings sessionId) data))
        (fun response => ret (mapSettingsToEntity response)).

(** The class as an implementation of ISessionRepository. *)
Definition impl (X : Type) (op : ISessionRepository X) : Async ApiClient (result X) :=
  match op with
  | session_create data => create data
  | session_getById id => getById id
  | session_update id data => update id data
  | session_delete id => delete id
  | session_createSettings sessionId data => createSettings sessionId data
  end.

End SessionRepository.

(** ** infrastructure/api/repositories/EquipmentRepository.ts *)

Module EquipmentRepository.

Definition basePath : string := API_CONFIG.equipment_base.

Definition mapToEntity (data : EquipmentResponse.t) : Equipment.t :=
  Equipment.mk
    (EquipmentResponse.id data)
    (EquipmentResponse.name data)
    (EquipmentResponse.type data)
    (EquipmentResponse.manufacturer data)
    (EquipmentResponse.model data)
    (EquipmentResponse.purchase_date data)
    (EquipmentResponse.notes data)
    (EquipmentResponse.active data)
    (EquipmentResponse.wear data)
    (EquipmentResponse.owner_id data)
    (EquipmentResponse.created_at data)
    (EquipmentResponse.updated_at data)
    (EquipmentResponse.age_in_days data)
    (EquipmentResponse.needs_replacement data).

Definition getById (id : string) : Async ApiClient (result (option Equipment.t)) :=
  bind (call (api_get_equipment (basePath +:+ "/" +:+ id)))
       (fun r => match r with
                 | Resolved response => ret (Some (mapToEntity response))
                 | Rejected error => ret None
                 end).

Definition delete (id : string) : Async ApiClient (result bool) :=
  await (call (api_delete (basePath +:+ "/" +:+ id))) (fun _ => ret true).

Definition retire (id : string) : Async ApiClient (result bool) :=
  await (call (api_patch (API_CONFIG.equipment_retire id))) (fun _ => ret true).

Definition reactivate (id : string) : Async ApiClient (result bool) :=
  await (call (api_patch (API_CONFIG.equipment_reactivate id))) (fun _ => ret true).

Definition getStatistics : Async ApiClient (result EquipmentStatisticsResponse.t) :=
  call (api_get_statistics API_CONFIG.equipment_stats).

(** The class as an implementation of IEquipmentRepository. *)
Definition impl (X : Type) (op : IEquipmentRepository X) : Async ApiClient (result X) :=
  match op with
  | equipment_getById id => getById id
  | equipment_delete id => delete id
  | equipment_retire id => retire id
  | equipment_reactivate id => reactivate id
  | equipment_getStatistics => getStatistics
  end.

End EquipmentRepository.

(** ** application/hooks/useEquipment.ts

    The hook's state is the React state of its [useState] cells.  The
    [equipment] array holds references to [Equipment] objects: the objects
    live in a store, and an assignment to a property of one is seen through
    every array that holds the reference.  (The [params] cell, which only
    the fetch reads, is left out.  Every error thrown below is an [Error],
    so [err instanceof Error] holds in each [catch].) *)

Module useEquipment.

Abbreviation ref := positive.
Abbreviation store := (gmap positive Equipment.t).

Record State : Type := mkState {
  equipment : list ref;
  loading : bool;
  error : option string;
  statistics : option EquipmentStatisticsResponse.t
}.

Definition setEquipment (f : list ref -> list ref) (st : State) : State :=
  mkState (f (equipment st)) (loading st) (error st) (statistics st).
Definition setError (e : option string) (st : State) : State :=
  mkState (equipment st) (loading st) e (statistics st).
Definition setStatistics (s : option EquipmentStatisticsResponse.t) (st : State)
  : State :=
  mkState (equipment st) (loading st) (error st) s.

(** [const equipmentService = new EquipmentService()]: the service on the
    default repository. *)
Definition equipmentService {A} (m : Async IEquipmentRepository A) : Async ApiClient A :=
  interp EquipmentRepository.impl m.

(** [equipment.find(e => e.id === id)] *)
Definition find (objects : store) (equipment : list ref) (id : string) : option ref :=
  List.find (fun r => match objects !! r with
                      | Some e => String.eqb (Equipment.id e) id
                      | None => false
                      end) equipment.

(** An action of the hook: from the React state and the object store to
    the settled promise and the state and store it leaves.  The first
    argument is the [equipment] array of the render that created the
    closure.  [updatedEquipment.active = b] writes to the object found,
    [setEquipment(prev => [...prev])] stores a copy of the array (the same
    references), and the [catch] stores [err.message] and rethrows. *)
Definition retireEquipment (equipment : list ref) (id : string)
    (st : State) (objects : store)
  : Async ApiClient (result unit * (State * store)) :=
  let st := setError None st in
  bind (equipmentService (EquipmentService.retireEquipment id)) (fun r =>
    match r with
    | Rejected err =>
        Done (Rejected err, (setError (Some (message err)) st, objects))
    | Resolved _ =>
        let '(st, objects) :=
          match find objects equipment id with
          | Some updatedEquipment =>
              (setEquipment (fun prev => prev) st,
               alter (Equipment.set_active false) updatedEquipment objects)
          | None => (st, objects)
          end in
        bind (equipmentService EquipmentService.getEquipmentStatistics) (fun r' =>
          match r' with
          | Rejected err =>
              Done (Rejected err, (setError (Some (message err)) st, objects))
          | Resolved newStats =>
              Done (Resolved tt, (setStatistics (Some newStats) st, objects))
          end)
    end).

Definition reactivateEquipment (equipment : list ref) (id : string)
    (st : State) (objects : store)
  : Async ApiClient (result unit * (State * store)) :=
  let st := setError None st in
  bind (equipmentService (EquipmentService.reactivateEquipment id)) (fun r =>
    match r with
    | Rejected err =>
        Done (Rejected err, (setError (Some (message err)) st, objects))
    | Resolved _ =>
        let '(st, objects) :=
          match find objects equipment id with
          | Some updatedEquipment =>
              (setEquipment (fun prev => prev) st,
               alter (Equipment.set_active true) updatedEquipment objects)
          | None => (st, objects)
          end in
        bind (equipmentService EquipmentService.getEquipmentStatistics) (fun r' =>
          match r' with
          | Rejected err =>
              Done (Rejected err, (setError (Some (message err)) st, objects))
          | Resolved newStats =>
              Done (Resolved tt, (setStatistics (Some newStats) st, objects))
          end)
    end).

(** [prev.filter(e => e.id !== id)] on an array of references. *)
Definition without (objects : store) (id : string) (prev : list ref) : list ref :=
  List.filter (fun r => match objects !! r with
                        | Some e => negb (String.eqb (Equipment.id e) id)
                        | None => true
                        end) prev.

Definition deleteEquipment (id : string) (st : State) (objects : store)
  : Async ApiClient (result unit * (State * store)) :=
  let st := setError None st in
  bind (equipmentService (EquipmentService.deleteEquipment id)) (fun r =>
    match r with
    | Rejected err =>
        Done (Rejected err, (setError (Some (message err)) st, objects))
    | Resolved _ =>
        let st := setEquipment (without objects id) st in
        bind (equipmentService EquipmentService.getEquipmentStatistics) (fun r' =>
          match r' with
          | Rejected err =>
              Done (Rejected err, (setError (Some (message err)) st, objects))
          | Resolved newStats =>
              Done (Resolved tt, (setStatistics (Some newStats) st, objects))
          end)
    end).

End useEquipment.

(** ** application/hooks/useSessions.ts

    The sessions array is replaced, never written to, by these actions, so
    it is a list of values.  (The [sortParams] cell, which only the fetch
    reads, is left out.) *)

Module useSessions.

Record State : Type := mkState {
  sessions : list Session.t;
  loading : bool;
  error : option string
}.

Definition setSessions (f : list Session.t -> list Session.t) (st : State) : State :=
  mkState (f (sessions st)) (loading st) (error st).
Definition setError (e : option string) (st : State) : State :=
  mkState (sessions st) (loading st) e.

(** [const sessionService = new SessionService()]: the service on the
    default repository. *)
Definition sessionService {A} (m : Async ISessionRepository A) : Async ApiClient A :=
  interp SessionRepository.impl m.

Definition createSession (data : CreateSessionDTO.t) (st : State)
  : Async ApiClient (result Session.t * State) :=
  let st := setError None st in
  bind (sessionService (SessionService.createSession data)) (fun r =>
    match r with
    | Resolved newSession =>
        Done (Resolved newSession, setSessions (fun prev => newSession :: prev) st)
    | Rejected err => Done (Rejected err, setError (Some (message err)) st)
    end).

Definition updateSession (id : string) (data : UpdateSessionDTO.t) (st : State)
  : Async ApiClient (result Session.t * State) :=
  let st := setError None st in
  bind (sessionService (SessionService.updateSession id data)) (fun r =>
    match r with
    | Resolved updatedSession =>
        Done (Resolved updatedSession,
              setSessions
                (fun prev =>
                   map (fun s => if String.eqb (Session.id s) id
                                 then updatedSession else s) prev) st)
    | Rejected err => Done (Rejected err, setError (Some (message err)) st)
    end).

Definition deleteSession (id : string) (st : State)
  : Async ApiClient (result unit * State) :=
  let st := setError None st in
  bind (sessionService (SessionService.deleteSession id)) (fun r =>
    match r with
    | Resolved _ =>
        Done (Resolved tt,
              setSessions
                (fun prev =>
                   List.filter (fun s => negb (String.eqb (Session.id s) id)) prev) st)
    | Rejected err => Done (Rejected err, setError (Some (message err)) st)
    end).

End useSessions.

(** [{ ...d }] as an update payload: every field of a create payload,
    present. *)
Definition as_update (d : CreateSessionDTO.t) : UpdateSessionDTO.t :=
  UpdateSessionDTO.mk
    (Some (CreateSessionDTO.date d)) (Some (CreateSessionDTO.location d))
    (Some (CreateSessionDTO.wind_speed_min d)) (Some (CreateSessionDTO.wind_speed_max d))
    (Some (CreateSessionDTO.wave_type d)) (Some (CreateSessionDTO.wave_direction d))
    (Some (CreateSessionDTO.hours_on_water d))
    (Some (CreateSessionDTO.performance_rating d))
    (CreateSessionDTO.notes d) (CreateSessionDTO.equipment_ids d).

(** ** The average in binary64

    The arithmetic of [number] above is exact.  Where the rounding of the
    code's doubles decides a property, the fold is taken over IEEE 754
    binary64 values (the primitive floats): the sessions' [performanceRating]
    values as doubles, added from the left starting at 0, and the sum
    divided by the length. *)

Module Binary64.

(** A whole number and an array length as doubles (exact below 2^53). *)
Definition of_Z (k : Z) : float := PrimFloat.of_uint63 (Uint63.of_Z k).
Definition of_nat (n : nat) : float := of_Z (Z.of_nat n).

(** [SessionService.calculateAveragePerformance] on doubles; [ratings] are
    the [performanceRating]s of the sessions, in the order of the list. *)
Definition calculateAveragePerformance (ratings : list float) : float :=
  if Nat.eqb (length ratings) 0 then PrimFloat.zero
  else
    let total := fold_left PrimFloat.add ratings PrimFloat.zero in
    PrimFloat.div total (of_nat (length ratings)).

(** The rational a finite double stands for (0 for an infinity or NaN). *)
Definition value (x : float) : Q :=
  match FloatOps.Prim2SF x with
  | SpecFloat.S754_finite s m e =>
      ((if s then -1 else 1) * inject_Z (Z.pos m) * Qpower 2 e)%Q
  | _ => 0%Q
  end.



End Binary64.

(** ** Notions used to state the properties *)


(** Whether the payload has the numeric property [key] with a value below
    [lo] or above [hi]. *)
Definition outside (numbers : gmap string number) (key : string) (lo hi : Q) : bool :=
  match numbers !! key with
  | Some v => JS.lt v (Fin lo) || JS.gt v (Fin hi)
  | None => false
  end.





(** Two numbers are the same value (finite values as rationals; unlike
    [===], NaN is the same value as NaN). *)
Definition same_number (a b : number) : Prop :=
  match a, b with
  | Fin p, Fin q => p == q
  | PInf, PInf | NInf, NInf | NaN, NaN => True
  | _, _ => False
  end.


(** A number with an integral value. *)
Definition is_integer (a : number) : bool :=
  match a with
  | Fin q => Pos.eqb (Qden (Qred q)) 1
  | _ => false
  end.

(** [{ ...data, hours_on_water: h }] and [{ ...data, performance_rating: r }] *)
Definition create_with_hours (h : number) (d : CreateSessionDTO.t) : CreateSessionDTO.t :=
  CreateSessionDTO.mk
    (CreateSessionDTO.date d) (CreateSessionDTO.location d)
    (CreateSessionDTO.wind_speed_min d) (CreateSessionDTO.wind_speed_max d)
    (CreateSessionDTO.wave_type d) (CreateSessionDTO.wave_direction d)
    h (CreateSessionDTO.performance_rating d)
    (CreateSessionDTO.notes d) (CreateSessionDTO.equipment_ids d).

Definition create_with_rating (r : number) (d : CreateSessionDTO.t) : CreateSessionDTO.t :=
  CreateSessionDTO.mk
    (CreateSessionDTO.date d) (CreateSessionDTO.location d)
    (CreateSessionDTO.wind_speed_min d) (CreateSessionDTO.wind_speed_max d)
    (CreateSessionDTO.wave_type d) (CreateSessionDTO.wave_direction d)
    (CreateSessionDTO.hours_on_water d) r
    (CreateSessionDTO.notes d) (CreateSessionDTO.equipment_ids d).

Definition update_with_hours (h : option number) (d : UpdateSessionDTO.t)
  : UpdateSessionDTO.t :=
  UpdateSessionDTO.mk
    (UpdateSessionDTO.date d) (UpdateSessionDTO.location d)
    (UpdateSessionDTO.wind_speed_min d) (UpdateSessionDTO.wind_speed_max d)
    (UpdateSessionDTO.wave_type d) (UpdateSessionDTO.wave_direction d)
    h (UpdateSessionDTO.performance_rating d)
    (UpdateSessionDTO.notes d) (UpdateSessionDTO.equipment_ids d).

Definition update_with_rating (r : option number) (d : UpdateSessionDTO.t)
  : UpdateSessionDTO.t :=
  UpdateSessionDTO.mk
    (UpdateSessionDTO.date d) (UpdateSessionDTO.location d)
    (UpdateSessionDTO.wind_speed_min d) (UpdateSessionDTO.wind_speed_max d)
    (UpdateSessionDTO.wave_type d) (UpdateSessionDTO.wave_direction d)
    (UpdateSessionDTO.hours_on_water d) r
    (UpdateSessionDTO.notes d) (UpdateSessionDTO.equipment_ids d).

(** Two equipment objects that agree on every field but [active]. *)
Definition same_but_active (e e' : Equipment.t) : Prop :=
  Equipment.id e' = Equipment.id e
  /\ Equipment.name e' = Equipment.name e
  /\ Equipment.type e' = Equipment.type e
  /\ Equipment.manufacturer e' = Equipment.manufacturer e
  /\ Equipment.model e' = Equipment.model e
  /\ Equipment.purchaseDate e' = Equipment.purchaseDate e
  /\ Equipment.notes e' = Equipment.notes e
  /\ Equipment.wear e' = Equipment.wear e
  /\ Equipment.ownerId e' = Equipment.ownerId e
  /\ Equipment.createdAt e' = Equipment.createdAt e
  /\ Equipment.updatedAt e' = Equipment.updatedAt e
  /\ Equipment.ageInDays e' = Equipment.ageInDays e
  /\ Equipment.needsReplacement e' = Equipment.needsReplacement e.

(** A string without a character that is not white space (the empty string
    included). *)
Fixpoint blank (s : string) : bool :=
  match s with
  | EmptyString => true
  | String a r1 =>
      if JS.is_whitespace1 a then blank r1
      else match r1 with
           | EmptyString => false
           | String b r2 =>
               if JS.is_whitespace2 a b then blank r2
               else match r2 with
                    | EmptyString => false
                    | String c r3 => JS.is_whitespace3 a b c && blank r3
                    end
           end
  end.

(** [n] copies of a string. *)
Fixpoint copies (n : nat) (s : string) : string :=
  match n with
  | O => EmptyString
  | S k => s +:+ copies k s
  end.

(** The UTF-8 encodings of U+3000 (ideographic space), of U+5E06 (a CJK
    character) and of U+1F600 (a character outside the basic plane). *)
Definition u3000 : string :=
  String (Ascii.ascii_of_nat 227) (String (Ascii.ascii_of_nat 128)
    (String (Ascii.ascii_of_nat 128) EmptyString)).
Definition u5E06 : string :=
  String (Ascii.ascii_of_nat 229) (String (Ascii.ascii_of_nat 184)
    (String (Ascii.ascii_of_nat 134) EmptyString)).
Definition u1F600 : string :=
  String (Ascii.ascii_of_nat 240) (String (Ascii.ascii_of_nat 159)
    (String (Ascii.ascii_of_nat 152) (String (Ascii.ascii_of_nat 128) EmptyString))).


(** A method that rejects with the error of its request [e] whenever that
    request is rejected. *)
Definition propagates {X A} (e : ApiClient X) (m : Async ApiClient (result A)) : Prop :=
  forall W (h : forall X, ApiClient X -> W -> result X * W) (w w' : W) (err : Error),
    h X e w = (Rejected err, w') -> run h m w = (Rejected err, w').

(** Sample data. *)
Definition sample_session (rating : number) : Session.t :=
  Session.mk "s-1" "2024-06-01" "Kiel" (Fin 10) (Fin 15) Choppy "N" (Fin 3) rating
             None [] "u-1" "2024-06-01T10:00:00" "2024-06-01T10:00:00".

Definition sample_create (lo hi hours rating : number) : CreateSessionDTO.t :=
  CreateSessionDTO.mk "2024-06-01" "Kiel" lo hi Choppy "N" hours rating None None.

Definition sample_update (hours rating : option number) : UpdateSessionDTO.t :=
  UpdateSessionDTO.mk None None None None None None hours rating None None.

(** A backend on which nothing is found: every request fails with 404. *)
Definition not_found : AxiosError.t :=
  AxiosError.mk (Some 404) (JS.str "Not found") JS.undefined
                "Request failed with status code 404".

Definition backend_404 : Backend := fun X _ => inr not_found.

(** A backend that carries out every action and knows no resource. *)
Definition sample_statistics : EquipmentStatisticsResponse.t :=
  EquipmentStatisticsResponse.mk (Fin 2) (Fin 1) (Fin 1) ∅ None None None.

Definition backend_ok : Backend :=
  fun X e =>
    match e in ApiClient X return X + AxiosError.t with
    | api_patch _ => inl tt
    | api_delete _ => inl tt
    | api_get_statistics _ => inl sample_statistics
    | _ => inr not_found
    end.

Definition sample_equipment (id name : string) (active : bool) : Equipment.t :=
  Equipment.mk id name Mainsail "North Sails" "3Di" (Some "2023-03-01") None
               active (Fin 120) "u-1" "2023-03-01T09:00:00" "2024-05-01T09:00:00"
               (Some (Fin 400)) (Some false).

Definition sample_objects : useEquipment.store :=
  <[ 1%positive := sample_equipment "eq-1" "Main" true ]>
    {[ 2%positive := sample_equipment "eq-2" "Jib" true ]}.

Definition sample_state : useEquipment.State :=
  useEquipment.mkState [1%positive; 2%positive] false None None.

(** * Properties *)

(** ** Comparisons of numbers *)

Lemma Qlt_bool_iff (x y : Q) : Qlt_bool x y = true <-> (x < y)%Q.
Proof.
  unfold Qlt_bool. rewrite negb_true_iff.
  split; intros H.
  - apply Qnot_le_lt. intros Hle. apply Qle_bool_iff in Hle. congruence.
  - destruct (Qle_bool y x) eqn:E; [|reflexivity].
    apply Qle_bool_iff in E. exfalso. apply (Qlt_not_le _ _ H E).
Qed.

Lemma Qlt_bool_false (x y : Q) : Qlt_bool x y = false <-> (y <= x)%Q.
Proof.
  unfold Qlt_bool. rewrite negb_false_iff. apply Qle_bool_iff.
Qed.

Lemma lt_Fin (a : number) (q : Q) :
  JS.lt a (Fin q) = true <-> a = NInf \/ exists p, a = Fin p /\ (p < q)%Q.
Proof.
  destruct a as [p| | |]; simpl; split; intros H; try discriminate; eauto.
  - right. exists p. split; [reflexivity|]. now apply Qlt_bool_iff.
  - destruct H as [H|[p' [[= <-] H]]]; [discriminate|]. now apply Qlt_bool_iff.
  - destruct H as [H|[p' [H _]]]; discriminate.
  - destruct H as [H|[p' [H _]]]; discriminate.
Qed.

Lemma gt_Fin (a : number) (q : Q) :
  JS.gt a (Fin q) = true <-> a = PInf \/ exists p, a = Fin p /\ (q < p)%Q.
Proof.
  unfold JS.gt.
  destruct a as [p| | |]; simpl; split; intros H; try discriminate; eauto.
  - right. exists p. split; [reflexivity|]. now apply Qlt_bool_iff.
  - destruct H as [H|[p' [[= <-] H]]]; [discriminate|]. now apply Qlt_bool_iff.
  - destruct H as [H|[p' [H _]]]; discriminate.
  - destruct H as [H|[p' [H _]]]; discriminate.
Qed.

(** On numbers other than NaN the order is total: [a > b] fails exactly
    when [a <= b] holds. *)
Lemma gt_false_le (a b : number) :
  a <> NaN -> b <> NaN -> JS.gt a b = false -> JS.le a b = true.
Proof.
  unfold JS.gt.
  destruct a as [p| | |], b as [q| | |]; simpl; intros Ha Hb H;
    try congruence.
  apply Qlt_bool_false in H. now apply Qle_bool_iff.
Qed.

Lemma lt_false_ge (a b : number) :
  a <> NaN -> b <> NaN -> JS.lt a b = false -> JS.le b a = true.
Proof. intros Ha Hb H. apply gt_false_le; assumption. Qed.

Lemma le_false_gt (a b : number) :
  a <> NaN -> b <> NaN -> JS.le a b = false -> JS.gt a b = true.
Proof.
  unfold JS.gt.
  destruct a as [p| | |], b as [q| | |]; simpl; intros Ha Hb H;
    try congruence.
  unfold Qlt_bool. now rewrite H.
Qed.

Lemma le_not_gt (a b : number) : JS.le a b = true -> JS.gt a b = false.
Proof.
  unfold JS.gt.
  destruct a as [p| | |], b as [q| | |]; simpl; intros H; try congruence.
  apply Qlt_bool_false. now apply Qle_bool_iff.
Qed.

Lemma le_not_lt (a b : number) : JS.le a b = true -> JS.lt b a = false.
Proof. apply le_not_gt. Qed.

Lemma lt_not_le (a b : number) : JS.lt a b = true -> JS.le b a = false.
Proof.
  destruct a as [p| | |], b as [q| | |]; simpl; intros H; try congruence.
  unfold Qlt_bool in H. now apply negb_true_iff in H.
Qed.

(** ** Sameness of numbers and addition *)

Lemma same_number_refl (a : number) : same_number a a.
Proof. destruct a; simpl; auto. reflexivity. Qed.



Lemma add_same (a a' b b' : number) :
  same_number a a' -> same_number b b' -> same_number (JS.add a b) (JS.add a' b').
Proof.
  destruct a, a', b, b'; simpl; auto; try contradiction.
  intros H1 H2. now rewrite H1, H2.
Qed.



Lemma add_zero_l (a : number) : same_number (JS.add (Fin 0) a) a.
Proof. destruct a; simpl; auto. apply Qplus_0_l. Qed.


Lemma of_nat_nonzero (n : nat) : n <> 0%nat -> Qeq_bool (inject_Z (Z.of_nat n)) 0 = false.
Proof.
  intros Hn. destruct (Qeq_bool _ _) eqn:E; [|reflexivity].
  apply Qeq_bool_iff in E. unfold Qeq in E. simpl in E. lia.
Qed.

Lemma div_length_same (a b : number) (n : nat) :
  n <> 0%nat -> same_number a b ->
  same_number (JS.div a (JS.of_nat n)) (JS.div b (JS.of_nat n)).
Proof.
  intros Hn Hab. unfold JS.of_nat.
  destruct a as [p| | |], b as [q| | |]; simpl in *; auto; try contradiction.
  - rewrite of_nat_nonzero by assumption. simpl. now rewrite Hab.
  - destruct (Qlt_bool _ _); exact I.
  - destruct (Qlt_bool _ _); exact I.
Qed.

(** ** Aggregation helpers of SessionService *)

(** C10: on an empty list of sessions [calculateAveragePerformance] returns 0
    (the division is not reached) and [calculateTotalHours] returns 0. *)
Theorem aggregates_of_empty_list :
  SessionService.calculateAveragePerformance [] = Fin 0
  /\ SessionService.calculateTotalHours [] = Fin 0.
Proof. split; reflexivity. Qed.







(** ** Weather conditions *)

Lemma heavy_light_exclusive (s : Session.t) :
  Session.isHeavyWeather s && Session.isLightWeather s = false.
Proof.
  unfold Session.isHeavyWeather, Session.isLightWeather.
  destruct (JS.gt (Session.averageWindSpeed s) (Fin 20)) eqn:Hgt,
           (JS.lt (Session.averageWindSpeed s) (Fin 8)) eqn:Hlt.
  - exfalso. apply gt_Fin in Hgt. apply lt_Fin in Hlt.
    destruct Hgt as [Hg|[p [Hg Hp]]], Hlt as [Hl|[q [Hl Hq]]]; try congruence.
    rewrite Hg in Hl. injection Hl as <-. lra.
  - now rewrite andb_false_r.
  - now destruct (Session.waveType s).
  - now rewrite andb_false_r.
Qed.

(** Three predicates of which exactly one holds of every element split a
    list into three filters. *)
Lemma filter3_permutation {A} (p q r : A -> bool) (l : list A) :
  (forall x, (p x = true /\ q x = false /\ r x = false)
             \/ (p x = false /\ q x = true /\ r x = false)
             \/ (p x = false /\ q x = false /\ r x = true)) ->
  Permutation l (List.filter p l ++ List.filter q l ++ List.filter r l).
Proof.
  intros Hone. induction l as [|x l IH]; simpl; [constructor|].
  destruct (Hone x) as [(-> & -> & ->)|[(-> & -> & ->)|(-> & -> & ->)]]; simpl.
  - now constructor.
  - rewrite <- Permutation_middle. now constructor.
  - rewrite app_assoc, <- Permutation_middle, <- app_assoc. now constructor.
Qed.

Lemma condition_cases (s : Session.t) :
  (Session.isHeavyWeather s = true /\ Session.isLightWeather s = false
   /\ negb (Session.isHeavyWeather s) && negb (Session.isLightWeather s) = false)
  \/ (Session.isHeavyWeather s = false /\ Session.isLightWeather s = true
      /\ negb (Session.isHeavyWeather s) && negb (Session.isLightWeather s) = false)
  \/ (Session.isHeavyWeather s = false /\ Session.isLightWeather s = false
      /\ negb (Session.isHeavyWeather s) && negb (Session.isLightWeather s) = true).
Proof.
  pose proof (heavy_light_exclusive s) as H.
  destruct (Session.isHeavyWeather s), (Session.isLightWeather s);
    simpl in *; try discriminate; auto.
Qed.

(** C9: [isHeavyWeather] and [isLightWeather] never hold together, and
    [getSessionsByCondition] with 'heavy', 'light' and 'medium' partitions a
    session list: the three results together are a rearrangement of the
    input, and every session of the input is in exactly one of them. *)
Theorem conditions_partition_sessions (sessions : list Session.t) :
  let H := SessionService.getSessionsByCondition sessions SessionService.heavy in
  let L := SessionService.getSessionsByCondition sessions SessionService.light in
  let M := SessionService.getSessionsByCondition sessions SessionService.medium in
  (forall s, Session.isHeavyWeather s && Session.isLightWeather s = false)
  /\ Permutation sessions (H ++ L ++ M)
  /\ (forall s, In s sessions ->
        (In s H /\ ~ In s L /\ ~ In s M)
        \/ (~ In s H /\ In s L /\ ~ In s M)
        \/ (~ In s H /\ ~ In s L /\ In s M)).
Proof.
  cbv zeta. unfold SessionService.getSessionsByCondition.
  split; [exact heavy_light_exclusive|]. split.
  - apply filter3_permutation. exact condition_cases.
  - intros s Hs. rewrite !filter_In.
    destruct (condition_cases s) as [(-> & -> & E)|[(-> & -> & E)|(-> & -> & E)]].
    + left. intuition congruence.
    + right; left. intuition congruence.
    + right; right. simpl. intuition congruence.
Qed.

(** ** Validation in SessionService

    A call that fails validation is [throw msg], that is
    [Done (Rejected _)]: the promise is rejected and no operation of the
    repository has been awaited.  A call that passes validation is the
    repository call itself. *)

Lemma throw_is_not_call {E A} (msg : string) (e : E A) : throw msg <> call e.
Proof. discriminate. Qed.

Lemma throw_makes_no_call {E W A} (h : forall X, E X -> W -> result X * W)
    (msg : string) (w : W) :
  calls h (throw (A:=A) msg) w = 0%nat /\ run h (throw (A:=A) msg) w = (Rejected (mkError msg), w).
Proof. split; reflexivity. Qed.

Lemma createSession_passes (d : CreateSessionDTO.t) :
  SessionService.createSession d = call (session_create d) <->
  (JS.not_str (CreateSessionDTO.location d)
   || Nat.eqb (String.length (JS.trim (CreateSessionDTO.location d))) 0 = false
   /\ JS.lt (CreateSessionDTO.wind_speed_min d) (Fin 0)
      || JS.lt (CreateSessionDTO.wind_speed_max d) (Fin 0) = false
   /\ JS.gt (CreateSessionDTO.wind_speed_min d) (CreateSessionDTO.wind_speed_max d) = false
   /\ JS.le (CreateSessionDTO.hours_on_water d) (Fin 0)
      || JS.gt (CreateSessionDTO.hours_on_water d) (Fin 12) = false
   /\ JS.lt (CreateSessionDTO.performance_rating d) (Fin 1)
      || JS.gt (CreateSessionDTO.performance_rating d) (Fin 5) = false).
Proof.
  unfold SessionService.createSession.
  destruct (JS.not_str _ || _);
    [split; [discriminate | intros (Hf & _); discriminate Hf]|].
  destruct (JS.lt (CreateSessionDTO.wind_speed_min d) _ || _);
    [split; [discriminate | intros (_ & Hf & _); discriminate Hf]|].
  destruct (JS.gt (CreateSessionDTO.wind_speed_min d) _);
    [split; [discriminate | intros (_ & _ & Hf & _); discriminate Hf]|].
  destruct (JS.le _ _ || _);
    [split; [discriminate | intros (_ & _ & _ & Hf & _); discriminate Hf]|].
  destruct (JS.lt (CreateSessionDTO.performance_rating d) _ || _);
    [split; [discriminate | intros (_ & _ & _ & _ & Hf ); discriminate Hf]|].
  split; auto.
Qed.

Lemma createSession_throws_or_calls (d : CreateSessionDTO.t) :
  (exists msg, SessionService.createSession d = throw msg)
  \/ SessionService.createSession d = call (session_create d).
Proof.
  unfold SessionService.createSession.
  repeat match goal with
         | |- context [if ?c then _ else _] => destruct c; [left; eexists; reflexivity|]
         end.
  now right.
Qed.

Lemma updateSession_passes (id : string) (u : UpdateSessionDTO.t) :
  SessionService.updateSession id u = call (session_update id u) <->
  (match UpdateSessionDTO.wind_speed_min u, UpdateSessionDTO.wind_speed_max u with
   | Some lo, Some hi => JS.gt lo hi
   | _, _ => false
   end = false
   /\ match UpdateSessionDTO.hours_on_water u with
      | Some h => JS.le h (Fin 0) || JS.gt h (Fin 12)
      | None => false
      end = false
   /\ match UpdateSessionDTO.performance_rating u with
      | Some r => JS.lt r (Fin 1) || JS.gt r (Fin 5)
      | None => false
      end = false).
Proof.
  unfold SessionService.updateSession.
  match goal with
  | |- context [if ?c then throw "Minimum wind speed cannot exceed maximum" else _] =>
      destruct c
  end; [split; [discriminate | intros (Hf & _); discriminate Hf]|].
  match goal with
  | |- context [if ?c then throw "Hours on water must be between 0 and 12" else _] =>
      destruct c
  end; [split; [discriminate | intros (_ & Hf & _); discriminate Hf]|].
  match goal with
  | |- context [if ?c then throw "Performance rating must be between 1 and 5" else _] =>
      destruct c
  end; [split; [discriminate | intros (_ & _ & Hf); discriminate Hf]|].
  split; auto.
Qed.

Lemma updateSession_throws_or_calls (id : string) (u : UpdateSessionDTO.t) :
  (exists msg, SessionService.updateSession id u = throw msg)
  \/ SessionService.updateSession id u = call (session_update id u).
Proof.
  unfold SessionService.updateSession.
  repeat match goal with
         | |- context [if ?c then _ else _] => destruct c; [left; eexists; reflexivity|]
         end.
  now right.
Qed.

Lemma createSession_not_passes (d : CreateSessionDTO.t) :
  SessionService.createSession d <> call (session_create d) ->
  exists msg, SessionService.createSession d = throw msg.
Proof. destruct (createSession_throws_or_calls d); tauto. Qed.

Lemma updateSession_not_passes (id : string) (u : UpdateSessionDTO.t) :
  SessionService.updateSession id u <> call (session_update id u) ->
  exists msg, SessionService.updateSession id u = throw msg.
Proof. destruct (updateSession_throws_or_calls id u); tauto. Qed.




(** C2 (as amended): [createSession], and [updateSession] when the field is
    present, reject a [performance_rating] exactly when it is below 1 or
    above 5.  An accepted rating other than NaN therefore lies in [1,5];
    whether it is an integer is not checked.  The values 0 and 6 are
    rejected with a thrown error before any repository call, and a payload
    accepted with one rating is accepted with every rating that is neither
    below 1 nor above 5; an update without the field is not checked. *)
Theorem rating_validation (d : CreateSessionDTO.t) (id : string)
    (u : UpdateSessionDTO.t) (r : number) :
  (SessionService.createSession (create_with_rating r d)
   = call (session_create (create_with_rating r d)) ->
   JS.lt r (Fin 1) = false /\ JS.gt r (Fin 5) = false
   /\ (r <> NaN -> JS.le (Fin 1) r = true /\ JS.le r (Fin 5) = true))
  /\ (SessionService.updateSession id (update_with_rating (Some r) u)
      = call (session_update id (update_with_rating (Some r) u)) ->
      JS.lt r (Fin 1) = false /\ JS.gt r (Fin 5) = false
      /\ (r <> NaN -> JS.le (Fin 1) r = true /\ JS.le r (Fin 5) = true))
  /\ (r = Fin 0 \/ r = Fin 6 ->
      (exists msg, SessionService.createSession (create_with_rating r d) = throw msg)
      /\ (exists msg,
            SessionService.updateSession id (update_with_rating (Some r) u) = throw msg))
  /\ (JS.lt r (Fin 1) = false -> JS.gt r (Fin 5) = false ->
      (SessionService.createSession d = call (session_create d) ->
       SessionService.createSession (create_with_rating r d)
       = call (session_create (create_with_rating r d)))
      /\ (SessionService.updateSession id u = call (session_update id u) ->
          SessionService.updateSession id (update_with_rating (Some r) u)
          = call (session_update id (update_with_rating (Some r) u))))
  /\ (SessionService.updateSession id u = call (session_update id u) ->
      SessionService.updateSession id (update_with_rating None u)
      = call (session_update id (update_with_rating None u))).
Proof.
  assert (Hrange : JS.lt r (Fin 1) || JS.gt r (Fin 5) = false ->
                   JS.lt r (Fin 1) = false /\ JS.gt r (Fin 5) = false
                   /\ (r <> NaN -> JS.le (Fin 1) r = true /\ JS.le r (Fin 5) = true)).
  { intros H. apply orb_false_iff in H. destruct H as [H1 H5].
    repeat split; try assumption.
    - apply lt_false_ge; [assumption|discriminate|assumption].
    - apply gt_false_le; [assumption|discriminate|assumption]. }
  split; [|split; [|split; [|split]]].
  - intros H. apply createSession_passes in H. simpl in H.
    apply Hrange. tauto.
  - intros H. apply updateSession_passes in H. simpl in H.
    apply Hrange. tauto.
  - intros Hr. split.
    + apply createSession_not_passes. intros H.
      apply createSession_passes in H. simpl in H.
      destruct H as (_ & _ & _ & _ & H). destruct Hr as [-> | ->]; discriminate H.
    + apply updateSession_not_passes. intros H.
      apply updateSession_passes in H. simpl in H.
      destruct H as (_ & _ & H). destruct Hr as [-> | ->]; discriminate H.
  - intros H1 H5.
    assert (Hor : JS.lt r (Fin 1) || JS.gt r (Fin 5) = false)
      by (rewrite H1, H5; reflexivity).
    split; intros H.
    + apply createSession_passes in H. apply createSession_passes.
      destruct H as (A & B & C & D & _).
      exact (conj A (conj B (conj C (conj D Hor)))).
    + apply updateSession_passes in H. apply updateSession_passes.
      destruct H as (A & B & _).
      exact (conj A (conj B Hor)).
  - intros H. apply updateSession_passes in H. apply updateSession_passes.
    destruct H as (A & B & _).
    exact (conj A (conj B eq_refl)).
Qed.

Lemma rating_validation_witness :
  (exists msg,
     SessionService.createSession (sample_create (Fin 10) (Fin 15) (Fin 3) (Fin 6))
     = throw msg)
  /\ SessionService.updateSession "s-1" (sample_update None (Some (Fin 5)))
     = call (session_update "s-1" (sample_update None (Some (Fin 5))))
  /\ JS.le (Fin 1) (Fin 3) = true.
Proof.
  pose proof (rating_validation (sample_create (Fin 10) (Fin 15) (Fin 3) (Fin 3))
                "s-1" (sample_update None None)) as V.
  split; [|split].
  - destruct (V (Fin 6)) as (_ & _ & H & _).
    exact (proj1 (H (or_intror eq_refl))).
  - destruct (V (Fin 5)) as (_ & _ & _ & H & _).
    exact (proj2 (H eq_refl eq_refl) eq_refl).
  - destruct (V (Fin 3)) as (H & _).
    refine (proj1 (proj2 (proj2 (H eq_refl)) _)). discriminate.
Defined.

(** C2 as stated fails: the rating 2.5 is in range but not an integer, and
    both paths accept it; NaN is accepted as well. *)
Lemma rating_integer_counterexample :
  let d := sample_create (Fin 10) (Fin 15) (Fin 3) (Fin (5 # 2)) in
  let u := sample_update None (Some (Fin (5 # 2))) in
  let d' := sample_create (Fin 10) (Fin 15) (Fin 3) NaN in
  is_integer (Fin (5 # 2)) = false
  /\ SessionService.createSession d = call (session_create d)
  /\ SessionService.updateSession "s-1" u = call (session_update "s-1" u)
  /\ SessionService.createSession d' = call (session_create d').
Proof. cbv zeta. repeat split. Qed.

Lemma hours_in_range (h : number) :
  h <> NaN ->
  (JS.le h (Fin 0) = false /\ JS.gt h (Fin 12) = false
   <-> JS.lt (Fin 0) h = true /\ JS.le h (Fin 12) = true).
Proof.
  intros Hh. split; intros [H0 H12]; split.
  - apply (le_false_gt h (Fin 0)); [assumption|discriminate|assumption].
  - apply gt_false_le; [assumption|discriminate|assumption].
  - now apply lt_not_le.
  - now apply le_not_gt.
Qed.

(** C3 (as amended): [createSession], and [updateSession] when the field is
    present, reject [hours_on_water] exactly when [hours_on_water <= 0] or
    [hours_on_water > 12]; for every value other than NaN that is: accept
    exactly when [0 < hours_on_water <= 12].  The inputs 0 and 12.1 are
    rejected with a thrown error before any repository call, the input 12 is
    accepted, and an update without the field is not checked.  (The other
    fields are those of a payload that passes validation.) *)
Theorem hours_validation (d : CreateSessionDTO.t) (id : string)
    (u : UpdateSessionDTO.t) (h : number) :
  (SessionService.createSession d = call (session_create d) ->
   (SessionService.createSession (create_with_hours h d)
    = call (session_create (create_with_hours h d))
    <-> JS.le h (Fin 0) = false /\ JS.gt h (Fin 12) = false))
  /\ (SessionService.updateSession id u = call (session_update id u) ->
      (SessionService.updateSession id (update_with_hours (Some h) u)
       = call (session_update id (update_with_hours (Some h) u))
       <-> JS.le h (Fin 0) = false /\ JS.gt h (Fin 12) = false)
      /\ SessionService.updateSession id (update_with_hours None u)
         = call (session_update id (update_with_hours None u)))
  /\ (h <> NaN ->
      (JS.le h (Fin 0) = false /\ JS.gt h (Fin 12) = false
       <-> JS.lt (Fin 0) h = true /\ JS.le h (Fin 12) = true))
  /\ (h = Fin 0 \/ h = Fin (121 # 10) ->
      (exists msg, SessionService.createSession (create_with_hours h d) = throw msg)
      /\ (exists msg,
            SessionService.updateSession id (update_with_hours (Some h) u) = throw msg))
  /\ (h = Fin 12 ->
      (SessionService.createSession d = call (session_create d) ->
       SessionService.createSession (create_with_hours h d)
       = call (session_create (create_with_hours h d)))
      /\ (SessionService.updateSession id u = call (session_update id u) ->
          SessionService.updateSession id (update_with_hours (Some h) u)
          = call (session_update id (update_with_hours (Some h) u)))).
Proof.
  assert (Hc : SessionService.createSession d = call (session_create d) ->
               (SessionService.createSession (create_with_hours h d)
                = call (session_create (create_with_hours h d))
                <-> JS.le h (Fin 0) = false /\ JS.gt h (Fin 12) = false)).
  { intros H. apply createSession_passes in H.
    destruct H as (A & B & C & _ & E).
    rewrite createSession_passes. split.
    - intros (_ & _ & _ & D & _). now apply orb_false_iff in D.
    - intros [H0 H12].
      assert (D : JS.le h (Fin 0) || JS.gt h (Fin 12) = false)
        by (rewrite H0, H12; reflexivity).
      exact (conj A (conj B (conj C (conj D E)))). }
  assert (Hu : SessionService.updateSession id u = call (session_update id u) ->
               (SessionService.updateSession id (update_with_hours (Some h) u)
                = call (session_update id (update_with_hours (Some h) u))
                <-> JS.le h (Fin 0) = false /\ JS.gt h (Fin 12) = false)).
  { intros H. apply updateSession_passes in H.
    destruct H as (A & _ & C).
    rewrite updateSession_passes. split.
    - intros (_ & B & _). now apply orb_false_iff in B.
    - intros [H0 H12].
      assert (B : JS.le h (Fin 0) || JS.gt h (Fin 12) = false)
        by (rewrite H0, H12; reflexivity).
      exact (conj A (conj B C)). }
  split; [exact Hc|]. split; [|split; [|split]].
  - intros H. split; [exact (Hu H)|].
    apply updateSession_passes in H. apply updateSession_passes.
    destruct H as (A & _ & C). exact (conj A (conj eq_refl C)).
  - apply hours_in_range.
  - intros Hh. split.
    + apply createSession_not_passes. intros H.
      apply createSession_passes in H.
      destruct H as (_ & _ & _ & H & _). destruct Hh as [-> | ->]; discriminate H.
    + apply updateSession_not_passes. intros H.
      apply updateSession_passes in H.
      destruct H as (_ & H & _). destruct Hh as [-> | ->]; discriminate H.
  - intros ->. split; intros H.
    + apply (Hc H). split; reflexivity.
    + apply (Hu H). split; reflexivity.
Qed.

Lemma hours_validation_witness :
  SessionService.createSession (sample_create (Fin 10) (Fin 15) (Fin 12) (Fin 3))
  = call (session_create (sample_create (Fin 10) (Fin 15) (Fin 12) (Fin 3)))
  /\ (exists msg,
        SessionService.updateSession "s-1" (sample_update (Some (Fin (121 # 10))) None)
        = throw msg)
  /\ JS.lt (Fin 0) (Fin 5) = true.
Proof.
  pose proof (hours_validation (sample_create (Fin 10) (Fin 15) (Fin 3) (Fin 3))
                "s-1" (sample_update None None)) as V.
  split; [|split].
  - destruct (V (Fin 12)) as (_ & _ & _ & _ & H).
    exact (proj1 (H eq_refl) eq_refl).
  - destruct (V (Fin (121 # 10))) as (_ & _ & _ & H & _).
    exact (proj2 (H (or_intror eq_refl))).
  - destruct (V (Fin 5)) as (_ & _ & H & _).
    refine (proj1 (proj1 (H _) (conj eq_refl eq_refl))). discriminate.
Defined.

(** C3 as stated fails: NaN is not in (0,12], yet neither comparison of the
    check holds of it and both paths accept it. *)
Lemma hours_nan_counterexample :
  let d := sample_create (Fin 10) (Fin 15) NaN (Fin 3) in
  let u := sample_update (Some NaN) None in
  JS.lt (Fin 0) NaN && JS.le NaN (Fin 12) = false
  /\ SessionService.createSession d = call (session_create d)
  /\ SessionService.updateSession "s-1" u = call (session_update "s-1" u).
Proof. cbv zeta. repeat split. Qed.

(** ** Validation of equipment settings *)

Lemma check_tensions_None (ts : list string) (m : gmap string number) :
  SessionService.check_tensions ts m = None <->
  (forall t v, In t ts -> m !! t = Some v ->
               JS.lt v (Fin 0) || JS.gt v (Fin 10) = false).
Proof.
  induction ts as [|t ts IH]; cbn [SessionService.check_tensions].
  - split; [intros _ t v []|reflexivity].
  - destruct (m !! t) as [v|] eqn:Ht.
    + destruct (JS.lt v (Fin 0) || JS.gt v (Fin 10)) eqn:Hv.
      * split; [discriminate|]. intros H.
        specialize (H t v (or_introl eq_refl) Ht). congruence.
      * rewrite IH. split.
        -- intros H t' v' [<-|Hin] Hl; [congruence|eauto].
        -- intros H t' v' Hin Hl. apply (H t' v'); [now right|assumption].
    + rewrite IH. split.
      * intros H t' v' [<-|Hin] Hl; [congruence|eauto].
      * intros H t' v' Hin Hl. apply (H t' v'); [now right|assumption].
Qed.

Lemma within_not_outside (lo hi v : number) :
  JS.le lo v && JS.le v hi = true -> JS.lt v lo || JS.gt v hi = false.
Proof.
  intros H. apply andb_true_iff in H. destruct H as [Hlo Hhi].
  apply orb_false_iff. split; [now apply le_not_lt|now apply le_not_gt].
Qed.

Lemma createEquipmentSettings_throws_or_calls (sessionId : string)
    (data : SettingsData.t) :
  (exists msg, SessionService.createEquipmentSettings sessionId data = throw msg)
  \/ SessionService.createEquipmentSettings sessionId data
     = call (session_createSettings sessionId data).
Proof.
  unfold SessionService.createEquipmentSettings.
  destruct (SessionService.check_tensions _ _) as [msg|]; [left; eauto|].
  match goal with
  | |- context [if ?c then _ else _] => destruct c
  end; [left; eauto|now right].
Qed.

Lemma createEquipmentSettings_passes (sessionId : string) (data : SettingsData.t) :
  SessionService.createEquipmentSettings sessionId data
  = call (session_createSettings sessionId data)
  <-> (forall key,
         In key [ "forestay_tension"; "shroud_tension"; "main_tension";
                  "cap_tension"; "lowers_scale"; "mains_scale";
                  "cunningham"; "outhaul"; "vang" ] ->
         outside (SettingsData.numbers data) key 0 10 = false)
      /\ outside (SettingsData.numbers data) "mast_rake" (-5) 30 = false.
Proof.
  unfold SessionService.createEquipmentSettings, outside.
  change [ "forestay_tension"; "shroud_tension"; "main_tension";
           "cap_tension"; "lowers_scale"; "mains_scale";
           "cunningham"; "outhaul"; "vang" ] with SessionService.tensions.
  destruct (SessionService.check_tensions _ _) as [msg|] eqn:Hc.
  - split; [discriminate|]. intros [Hall _].
    assert (Hnone : SessionService.check_tensions SessionService.tensions
                      (SettingsData.numbers data) = None).
    { apply check_tensions_None. intros t v Hin Hl.
      specialize (Hall t Hin). now rewrite Hl in Hall. }
    congruence.
  - rewrite check_tensions_None in Hc.
    destruct (SettingsData.numbers data !! "mast_rake") as [v|].
    + destruct (JS.lt v (Fin (-5)) || JS.gt v (Fin 30)).
      * split; [discriminate|]. intros [_ Hf]. discriminate Hf.
      * split; [|reflexivity]. intros _. split; [|reflexivity].
        intros key Hin.
        destruct (SettingsData.numbers data !! key) as [x|] eqn:Hx; [|reflexivity].
        exact (Hc key x Hin Hx).
    + split; [|reflexivity]. intros _. split; [|reflexivity].
      intros key Hin.
      destruct (SettingsData.numbers data !! key) as [x|] eqn:Hx; [|reflexivity].
      exact (Hc key x Hin Hx).
Qed.

Lemma some_or_none (f : string -> bool) (l : list string) :
  (exists key, In key l /\ f key = true) \/ (forall key, In key l -> f key = false).
Proof.
  induction l as [|k l [(key & Hin & Hk)|Hall]].
  - right. intros key [].
  - left. exists key. split; [now right|assumption].
  - destruct (f k) eqn:Hk.
    + left. exists k. split; [now left|assumption].
    + right. intros key [<-|Hin]; [assumption|now apply Hall].
Qed.

(** C5 (as amended): [createEquipmentSettings] checks, before any repository
    call, the properties forestay_tension, shroud_tension, main_tension,
    cap_tension, lowers_scale, mains_scale, cunningham, outhaul and vang of
    the payload against 0 and 10 and mast_rake against -5 and 30, each when
    present.  It throws exactly when one of them is below its lower or
    above its upper bound, and passes the payload to the repository
    otherwise.  For a value other than NaN, not being below or above is
    lying within the bounds; NaN is neither and passes.  No other property
    of the payload (cap_hole, pre_bend, jib_halyard_tension) is checked. *)
Theorem settings_validation (sessionId : string) (data : SettingsData.t) :
  let numbers := SettingsData.numbers data in
  let names := [ "forestay_tension"; "shroud_tension"; "main_tension";
                 "cap_tension"; "lowers_scale"; "mains_scale";
                 "cunningham"; "outhaul"; "vang" ] in
  ((exists msg, SessionService.createEquipmentSettings sessionId data = throw msg)
   <-> (exists key, In key names /\ outside numbers key 0 10 = true)
       \/ outside numbers "mast_rake" (-5) 30 = true)
  /\ (SessionService.createEquipmentSettings sessionId data
      = call (session_createSettings sessionId data)
      <-> (forall key, In key names -> outside numbers key 0 10 = false)
          /\ outside numbers "mast_rake" (-5) 30 = false)
  /\ (forall key lo hi v,
        numbers !! key = Some v -> v <> NaN ->
        (outside numbers key lo hi = false
         <-> JS.le (Fin lo) v && JS.le v (Fin hi) = true))
  /\ (forall key v jib,
        ~ In key ("mast_rake" :: names) ->
        (SessionService.createEquipmentSettings sessionId
           (SettingsData.mk (<[ key := v ]> numbers) jib)
         = call (session_createSettings sessionId
                   (SettingsData.mk (<[ key := v ]> numbers) jib))
         <-> SessionService.createEquipmentSettings sessionId data
             = call (session_createSettings sessionId data))).
Proof.
  cbv zeta. split; [|split; [|split]].
  - pose proof (createEquipmentSettings_passes sessionId data) as Hp.
    destruct (createEquipmentSettings_throws_or_calls sessionId data) as [[msg Ht]|Hc].
    + split; [intros _|eauto].
      destruct (some_or_none (fun key => outside (SettingsData.numbers data) key 0 10)
                  [ "forestay_tension"; "shroud_tension"; "main_tension";
                    "cap_tension"; "lowers_scale"; "mains_scale";
                    "cunningham"; "outhaul"; "vang" ]) as [Hex|Hall]; [now left|].
      destruct (outside (SettingsData.numbers data) "mast_rake" (-5) 30) eqn:Hm;
        [now right|].
      assert (Hcall := proj2 Hp (conj Hall eq_refl)).
      rewrite Ht in Hcall. discriminate Hcall.
    + split.
      * intros [msg Ht]. rewrite Hc in Ht. discriminate Ht.
      * destruct (proj1 Hp Hc) as [Hall Hm].
        intros [(key & Hin & Hk)|Hk]; [rewrite (Hall key Hin) in Hk|rewrite Hm in Hk];
          discriminate Hk.
  - apply createEquipmentSettings_passes.
  - intros key lo hi v Hl Hnan. unfold outside. rewrite Hl.
    assert (Hlo : Fin lo <> NaN) by discriminate.
    assert (Hhi : Fin hi <> NaN) by discriminate.
    split.
    + intros H. apply orb_false_iff in H. destruct H as [H1 H2].
      apply andb_true_iff. split.
      * now apply lt_false_ge.
      * now apply gt_false_le.
    + apply within_not_outside.
  - intros key v jib Hnot.
    rewrite !createEquipmentSettings_passes. cbn [SettingsData.numbers].
    assert (Hsame : forall k lo hi, In k ("mast_rake" :: [ "forestay_tension"; "shroud_tension"; "main_tension";
                 "cap_tension"; "lowers_scale"; "mains_scale";
                 "cunningham"; "outhaul"; "vang" ]) ->
              outside (<[ key := v ]> (SettingsData.numbers data)) k lo hi
              = outside (SettingsData.numbers data) k lo hi).
    { intros k lo hi Hin. unfold outside.
      rewrite lookup_insert_ne; [reflexivity|]. intros ->. contradiction. }
    rewrite (Hsame "mast_rake") by (now left).
    split; intros [Hall Hm]; (split; [|exact Hm]); intros k Hin.
    + rewrite <- (Hsame k) by (now right). now apply Hall.
    + rewrite (Hsame k) by (now right). now apply Hall.
Qed.

Lemma settings_validation_witness :
  (exists msg,
     SessionService.createEquipmentSettings "s-1"
       (SettingsData.mk {[ "vang" := Fin 11 ]} None) = throw msg)
  /\ SessionService.createEquipmentSettings "s-1"
       (SettingsData.mk (<[ "forestay_tension" := Fin 5 ]> {[ "mast_rake" := Fin 30 ]})
                        (Some Loose))
     = call (session_createSettings "s-1"
               (SettingsData.mk
                  (<[ "forestay_tension" := Fin 5 ]> {[ "mast_rake" := Fin 30 ]})
                  (Some Loose))).
Proof.
  split.
  - apply (proj2 (proj1 (settings_validation "s-1"
                           (SettingsData.mk {[ "vang" := Fin 11 ]} None)))).
    left. exists "vang". split; [vm_compute; tauto|vm_compute; reflexivity].
  - apply (proj2 (proj1 (proj2 (settings_validation "s-1"
                   (SettingsData.mk
                      (<[ "forestay_tension" := Fin 5 ]> {[ "mast_rake" := Fin 30 ]})
                      (Some Loose)))))).
    split; [|vm_compute; reflexivity].
    intros key Hin. cbv [In] in Hin.
    repeat (destruct Hin as [<- | Hin]; [vm_compute; reflexivity|]).
    destruct Hin.
Defined.

(** C5 as stated fails: a forestay_tension of NaN does not lie in [0,10]
    and passes validation; and the bounded properties cap_hole and pre_bend
    are not checked at all, so cap_hole = -1 with pre_bend = 500 passes. *)
Lemma settings_validation_counterexample :
  JS.le (Fin 0) NaN && JS.le NaN (Fin 10) = false
  /\ SessionService.createEquipmentSettings "s-1"
       (SettingsData.mk {[ "forestay_tension" := NaN ]} None)
     = call (session_createSettings "s-1"
               (SettingsData.mk {[ "forestay_tension" := NaN ]} None))
  /\ SessionService.createEquipmentSettings "s-1"
       (SettingsData.mk (<[ "cap_hole" := Fin (-1) ]> {[ "pre_bend" := Fin 500 ]}) None)
     = call (session_createSettings "s-1"
               (SettingsData.mk (<[ "cap_hole" := Fin (-1) ]> {[ "pre_bend" := Fin 500 ]})
                                None)).
Proof. split; [reflexivity|]. split; vm_compute; reflexivity. Qed.

(** ** Repositories *)

(** [getById] never rejects: whatever the request does, the promise
    resolves, with [null] when the request was rejected. *)
Lemma session_getById_run {W} (h : forall X, ApiClient X -> W -> result X * W)
    (id : string) (w : W) :
  run h (SessionRepository.getById id) w =
  match h _ (api_get_session (SessionRepository.basePath +:+ "/" +:+ id)) w with
  | (Resolved response, w') => (Resolved (Some (SessionRepository.mapToEntity response)), w')
  | (Rejected _, w') => (Resolved None, w')
  end.
Proof.
  unfold SessionRepository.getById. cbn [bind call run].
  destruct (h _ _ w) as [[response|e] w']; reflexivity.
Qed.

Lemma equipment_getById_run {W} (h : forall X, ApiClient X -> W -> result X * W)
    (id : string) (w : W) :
  run h (EquipmentRepository.getById id) w =
  match h _ (api_get_equipment (EquipmentRepository.basePath +:+ "/" +:+ id)) w with
  | (Resolved response, w') =>
      (Resolved (Some (EquipmentRepository.mapToEntity response)), w')
  | (Rejected _, w') => (Resolved None, w')
  end.
Proof.
  unfold EquipmentRepository.getById. cbn [bind call run].
  destruct (h _ _ w) as [[response|e] w']; reflexivity.
Qed.

(** C4: [getById] resolves with [null] whenever the get-by-id request is
    rejected, so the error does not reach the caller of
    [SessionRepository.getById] or of [SessionService.getSessionById] on
    that repository (nor of their equipment counterparts).  In particular,
    when the backend answers the request with a 404 error, which the client
    rejects with the error of the response interceptor, the result is
    [null]. *)
Theorem getById_not_found_is_null (id : string) :
  (forall W (h : forall X, ApiClient X -> W -> result X * W) (w w' : W) (err : Error),
     (h _ (api_get_session (SessionRepository.basePath +:+ "/" +:+ id)) w
      = (Rejected err, w') ->
      run h (SessionRepository.getById id) w = (Resolved None, w')
      /\ run h (interp SessionRepository.impl (SessionService.getSessionById id)) w
         = (Resolved None, w'))
     /\ (h _ (api_get_equipment (EquipmentRepository.basePath +:+ "/" +:+ id)) w
         = (Rejected err, w') ->
         run h (EquipmentRepository.getById id) w = (Resolved None, w')
         /\ run h (interp EquipmentRepository.impl
                     (EquipmentService.getEquipmentById id)) w
            = (Resolved None, w')))
  /\ (forall (backend : Backend) (b : Browser) (error : AxiosError.t),
        backend _ (api_get_session (SessionRepository.basePath +:+ "/" +:+ id))
        = inr error ->
        AxiosError.status error = Some 404 ->
        run (apiClient backend) (SessionRepository.getById id) b = (Resolved None, b)
        /\ run (apiClient backend)
               (interp SessionRepository.impl (SessionService.getSessionById id)) b
           = (Resolved None, b)).
Proof.
  assert (Hs : forall W (h : forall X, ApiClient X -> W -> result X * W) w,
             run h (interp SessionRepository.impl (SessionService.getSessionById id)) w
             = run h (SessionRepository.getById id) w).
  { intros W h w.
    cbn [SessionService.getSessionById call interp SessionRepository.impl].
    unfold SessionRepository.getById. cbn [bind call run].
    destruct (h _ _ w) as [[response|e] w']; reflexivity. }
  assert (He : forall W (h : forall X, ApiClient X -> W -> result X * W) w,
             run h (interp EquipmentRepository.impl
                      (EquipmentService.getEquipmentById id)) w
             = run h (EquipmentRepository.getById id) w).
  { intros W h w.
    cbn [EquipmentService.getEquipmentById call interp EquipmentRepository.impl].
    unfold EquipmentRepository.getById. cbn [bind call run].
    destruct (h _ _ w) as [[response|e] w']; reflexivity. }
  split.
  - intros W h w w' err. split; intros Hrej.
    + rewrite Hs, session_getById_run, Hrej. split; reflexivity.
    + rewrite He, equipment_getById_run, Hrej. split; reflexivity.
  - intros backend b error Hb Hstatus.
    rewrite Hs, session_getById_run. unfold apiClient. rewrite Hb.
    unfold interceptors.onResponseError. rewrite Hstatus. split; reflexivity.
Qed.

Lemma getById_not_found_is_null_witness :
  run (apiClient backend_404)
      (interp SessionRepository.impl (SessionService.getSessionById "missing"))
      (mkBrowser ∅ "/sessions")
  = (Resolved None, mkBrowser ∅ "/sessions")
  /\ run (apiClient backend_404) (EquipmentRepository.getById "missing")
         (mkBrowser ∅ "/equipment")
     = (Resolved None, mkBrowser ∅ "/equipment").
Proof.
  split.
  - exact (proj2 (proj2 (getById_not_found_is_null "missing") backend_404
                    (mkBrowser ∅ "/sessions") not_found eq_refl eq_refl)).
  - exact (proj1 (proj2 (proj1 (getById_not_found_is_null "missing") Browser
                           (apiClient backend_404) (mkBrowser ∅ "/equipment")
                           (mkBrowser ∅ "/equipment") (mkError "Not found"))
                    eq_refl)).
Defined.

(** [mapToEntity] carries every field of the wire response over to the
    entity unchanged, each snake_case field to its camelCase field, for
    sessions and for equipment; no two responses map to the same entity. *)
Lemma mapToEntity_preserves_fields :
  (forall data : SessionResponse.t,
     let s := SessionRepository.mapToEntity data in
     Session.id s = SessionResponse.id data
     /\ Session.date s = SessionResponse.date data
     /\ Session.location s = SessionResponse.location data
     /\ Session.windSpeedMin s = SessionResponse.wind_speed_min data
     /\ Session.windSpeedMax s = SessionResponse.wind_speed_max data
     /\ Session.waveType s = SessionResponse.wave_type data
     /\ Session.waveDirection s = SessionResponse.wave_direction data
     /\ Session.hoursOnWater s = SessionResponse.hours_on_water data
     /\ Session.performanceRating s = SessionResponse.performance_rating data
     /\ Session.notes s = SessionResponse.notes data
     /\ Session.createdBy s = SessionResponse.created_by data
     /\ Session.createdAt s = SessionResponse.created_at data
     /\ Session.updatedAt s = SessionResponse.updated_at data)
  /\ (forall data : EquipmentResponse.t,
        let e := EquipmentRepository.mapToEntity data in
        Equipment.id e = EquipmentResponse.id data
        /\ Equipment.name e = EquipmentResponse.name data
        /\ Equipment.type e = EquipmentResponse.type data
        /\ Equipment.manufacturer e = EquipmentResponse.manufacturer data
        /\ Equipment.model e = EquipmentResponse.model data
        /\ Equipment.purchaseDate e = EquipmentResponse.purchase_date data
        /\ Equipment.notes e = EquipmentResponse.notes data
        /\ Equipment.active e = EquipmentResponse.active data
        /\ Equipment.wear e = EquipmentResponse.wear data
        /\ Equipment.ownerId e = EquipmentResponse.owner_id data
        /\ Equipment.createdAt e = EquipmentResponse.created_at data
        /\ Equipment.updatedAt e = EquipmentResponse.updated_at data
        /\ Equipment.ageInDays e = EquipmentResponse.age_in_days data
        /\ Equipment.needsReplacement e = EquipmentResponse.needs_replacement data)
  /\ (forall data data' : SessionResponse.t,
        SessionRepository.mapToEntity data = SessionRepository.mapToEntity data' ->
        data = data')
  /\ (forall data data' : EquipmentResponse.t,
        EquipmentRepository.mapToEntity data = EquipmentRepository.mapToEntity data' ->
        data = data').
Proof.
  split; [|split; [|split]].
  - intros data. cbv zeta. repeat split.
  - intros data. cbv zeta. repeat split.
  - intros [] [] H. unfold SessionRepository.mapToEntity in H. simpl in H.
    injection H. intros. subst. reflexivity.
  - intros [] [] H. unfold EquipmentRepository.mapToEntity in H. simpl in H.
    injection H. intros. subst. reflexivity.
Qed.

(** [update] puts the payload it is given, unchanged, to the resource of
    the id, and maps the response. *)
Lemma update_sends_payload (id : string) (data : UpdateSessionDTO.t) :
  SessionRepository.update id data
  = Await (api_put_session (SessionRepository.basePath +:+ "/" +:+ id) data)
          (fun r => match r with
                    | Resolved response => ret (SessionRepository.mapToEntity response)
                    | Rejected e => Done (Rejected e)
                    end).
Proof. reflexivity. Qed.




(** ** The equipment hook *)

Ltac settle_requests h :=
  repeat match goal with
         | |- context [h ?X ?e ?w] => destruct (h X e w) as [[?|?] ?]; cbn
         | |- context [useEquipment.find ?o ?l ?i] =>
             destruct (useEquipment.find o l i); cbn
         end.

(** A resolved [retireEquipment] has written [active = false] to the object
    found (if any) and to nothing else, and left the array as it was. *)
Lemma retire_resolved {W} (h : forall X, ApiClient X -> W -> result X * W)
    (equipment : list useEquipment.ref) (id : string)
    (st : useEquipment.State) (objects : useEquipment.store) (w : W) :
  let out := run h (useEquipment.retireEquipment equipment id st objects) w in
  fst (fst out) = Resolved tt ->
  snd (snd (fst out))
  = match useEquipment.find objects equipment id with
    | Some r => alter (Equipment.set_active false) r objects
    | None => objects
    end
  /\ useEquipment.equipment (fst (snd (fst out))) = useEquipment.equipment st.
Proof.
  cbv zeta.
  unfold useEquipment.retireEquipment, useEquipment.equipmentService.
  cbn [EquipmentService.retireEquipment EquipmentService.getEquipmentStatistics
       call interp EquipmentRepository.impl EquipmentRepository.retire
       EquipmentRepository.getStatistics await bind run].
  destruct (h _ (api_patch _) w) as [[[]|e] w1]; cbn; [|discriminate].
  destruct (useEquipment.find objects equipment id); cbn;
    destruct (h _ (api_get_statistics _) w1) as [[s|e] w2]; cbn;
    intros H; try discriminate H; split; reflexivity.
Qed.

Lemma reactivate_resolved {W} (h : forall X, ApiClient X -> W -> result X * W)
    (equipment : list useEquipment.ref) (id : string)
    (st : useEquipment.State) (objects : useEquipment.store) (w : W) :
  let out := run h (useEquipment.reactivateEquipment equipment id st objects) w in
  fst (fst out) = Resolved tt ->
  snd (snd (fst out))
  = match useEquipment.find objects equipment id with
    | Some r => alter (Equipment.set_active true) r objects
    | None => objects
    end
  /\ useEquipment.equipment (fst (snd (fst out))) = useEquipment.equipment st.
Proof.
  cbv zeta.
  unfold useEquipment.reactivateEquipment, useEquipment.equipmentService.
  cbn [EquipmentService.reactivateEquipment EquipmentService.getEquipmentStatistics
       call interp EquipmentRepository.impl EquipmentRepository.reactivate
       EquipmentRepository.getStatistics await bind run].
  destruct (h _ (api_patch _) w) as [[[]|e] w1]; cbn; [|discriminate].
  destruct (useEquipment.find objects equipment id); cbn;
    destruct (h _ (api_get_statistics _) w1) as [[s|e] w2]; cbn;
    intros H; try discriminate H; split; reflexivity.
Qed.

Lemma set_active_same (b : bool) (e : Equipment.t) :
  Equipment.active (Equipment.set_active b e) = b
  /\ same_but_active e (Equipment.set_active b e).
Proof. split; [reflexivity|]. unfold same_but_active. repeat split. Qed.

(** Writing [active] does not change which entry [find] returns. *)
Lemma find_after_write (b : bool) (r : useEquipment.ref)
    (objects : useEquipment.store) (equipment : list useEquipment.ref) (id : string) :
  useEquipment.find (alter (Equipment.set_active b) r objects) equipment id
  = useEquipment.find objects equipment id.
Proof.
  unfold useEquipment.find.
  induction equipment as [|x l IH]; [reflexivity|].
  cbn [List.find]. rewrite IH.
  destruct (decide (r = x)) as [->|Hne].
  - rewrite lookup_alter_eq. destruct (objects !! x); reflexivity.
  - rewrite lookup_alter_ne by assumption. reflexivity.
Qed.

(** C8: [retireEquipment] and then [reactivateEquipment] on the id of an
    entry of the equipment list, both resolving, set the [active] field of
    that entry to [false] and then to [true]; no other field of the entry,
    no other object and not the list itself changes, and an entry that was
    active is the same as before. *)
Theorem retire_then_reactivate {W} (h : forall X, ApiClient X -> W -> result X * W)
    (w : W) (id : string) (st : useEquipment.State) (objects : useEquipment.store)
    (r : useEquipment.ref) (e : Equipment.t) :
  let retired :=
    run h (useEquipment.retireEquipment (useEquipment.equipment st) id st objects) w in
  let st1 := fst (snd (fst retired)) in
  let objects1 := snd (snd (fst retired)) in
  let reactivated :=
    run h (useEquipment.reactivateEquipment (useEquipment.equipment st1) id st1 objects1)
        (snd retired) in
  let st2 := fst (snd (fst reactivated)) in
  let objects2 := snd (snd (fst reactivated)) in
  useEquipment.find objects (useEquipment.equipment st) id = Some r ->
  objects !! r = Some e ->
  fst (fst retired) = Resolved tt ->
  fst (fst reactivated) = Resolved tt ->
  Equipment.id e = id
  /\ (exists e1, objects1 !! r = Some e1
                 /\ Equipment.active e1 = false /\ same_but_active e e1)
  /\ (exists e2, objects2 !! r = Some e2
                 /\ Equipment.active e2 = true /\ same_but_active e e2)
  /\ (forall r', r' <> r ->
        objects1 !! r' = objects !! r' /\ objects2 !! r' = objects !! r')
  /\ useEquipment.equipment st1 = useEquipment.equipment st
  /\ useEquipment.equipment st2 = useEquipment.equipment st
  /\ (Equipment.active e = true -> objects2 = objects).
Proof.
  intros retired st1 objects1 reactivated st2 objects2 Hfind He Hres1 Hres2.
  destruct (retire_resolved h _ id st objects w Hres1) as [Ho1 Hl1].
  fold retired in Ho1, Hl1. fold objects1 in Ho1. fold st1 in Hl1.
  destruct (reactivate_resolved h _ id st1 objects1 (snd retired) Hres2) as [Ho2 Hl2].
  fold reactivated in Ho2, Hl2. fold objects2 in Ho2. fold st2 in Hl2.
  rewrite Hfind in Ho1.
  rewrite Hl1, Ho1, find_after_write, Hfind in Ho2.
  split; [|split; [|split; [|split; [|split; [|split]]]]].
  - unfold useEquipment.find in Hfind. apply find_some in Hfind.
    destruct Hfind as [_ Hid]. rewrite He in Hid.
    now apply String.eqb_eq in Hid.
  - exists (Equipment.set_active false e). rewrite Ho1, lookup_alter_eq, He.
    split; [reflexivity|]. apply set_active_same.
  - exists (Equipment.set_active true e).
    rewrite Ho2, !lookup_alter_eq, He.
    split; [reflexivity|]. split; [reflexivity|]. unfold same_but_active. repeat split.
  - intros r' Hne. rewrite Ho2, Ho1.
    rewrite !lookup_alter_ne by congruence. split; reflexivity.
  - exact Hl1.
  - now rewrite Hl2.
  - intros Hact. rewrite Ho2. apply map_eq. intros i.
    destruct (decide (r = i)) as [<-|Hne].
    + rewrite !lookup_alter_eq, He. cbn. f_equal.
      destruct e; cbn in *; subst; reflexivity.
    + rewrite !lookup_alter_ne by assumption. reflexivity.
Qed.

Lemma retire_then_reactivate_witness :
  let retired :=
    run (apiClient backend_ok)
        (useEquipment.retireEquipment [1%positive; 2%positive] "eq-1"
           sample_state sample_objects)
        (mkBrowser ∅ "/equipment") in
  let reactivated :=
    run (apiClient backend_ok)
        (useEquipment.reactivateEquipment
           (useEquipment.equipment (fst (snd (fst retired)))) "eq-1"
           (fst (snd (fst retired))) (snd (snd (fst retired))))
        (snd retired) in
  snd (snd (fst reactivated)) = sample_objects.
Proof.
  cbv zeta.
  refine (proj2 (proj2 (proj2 (proj2 (proj2 (proj2
            (retire_then_reactivate (apiClient backend_ok) (mkBrowser ∅ "/equipment")
               "eq-1" sample_state sample_objects 1%positive
               (sample_equipment "eq-1" "Main" true) _ _ _ _)))))) _);
    vm_compute; reflexivity.
Defined.

(** * Further properties of the code *)

(** ** Blank strings *)

Lemma is_empty_length (s : string) :
  Nat.eqb (String.length s) 0 = JS.is_empty s.
Proof. destruct s; reflexivity. Qed.

(** One step of [trimEnd], [trimStart] and [blank] on a non-empty string. *)
Lemma trimEnd_step (a : Ascii.ascii) (r1 : string) :
  JS.trimEnd (String a r1) =
  if JS.is_whitespace1 a
  then (if JS.is_empty (JS.trimEnd r1) then EmptyString else String a (JS.trimEnd r1))
  else match r1 with
       | EmptyString => String a r1
       | String b r2 =>
           if JS.is_whitespace2 a b
           then (if JS.is_empty (JS.trimEnd r2) then EmptyString
                 else String a (String b (JS.trimEnd r2)))
           else match r2 with
                | EmptyString => String a (JS.trimEnd r1)
                | String c r3 =>
                    if JS.is_whitespace3 a b c
                    then (if JS.is_empty (JS.trimEnd r3) then EmptyString
                          else String a (String b (String c (JS.trimEnd r3))))
                    else String a (JS.trimEnd r1)
                end
       end.
Proof. destruct r1 as [|b [|c r3]]; reflexivity. Qed.

Lemma trimStart_step (a : Ascii.ascii) (r1 : string) :
  JS.trimStart (String a r1) =
  if JS.is_whitespace1 a then JS.trimStart r1
  else match r1 with
       | EmptyString => String a r1
       | String b r2 =>
           if JS.is_whitespace2 a b then JS.trimStart r2
           else match r2 with
                | EmptyString => String a r1
                | String c r3 =>
                    if JS.is_whitespace3 a b c then JS.trimStart r3 else String a r1
                end
       end.
Proof. destruct r1 as [|b [|c r3]]; reflexivity. Qed.

Lemma blank_step (a : Ascii.ascii) (r1 : string) :
  blank (String a r1) =
  if JS.is_whitespace1 a then blank r1
  else match r1 with
       | EmptyString => false
       | String b r2 =>
           if JS.is_whitespace2 a b then blank r2
           else match r2 with
                | EmptyString => false
                | String c r3 => JS.is_whitespace3 a b c && blank r3
                end
       end.
Proof. destruct r1 as [|b [|c r3]]; reflexivity. Qed.

Lemma trimEnd_blank_upto (n : nat) :
  forall s, String.length s <= n -> JS.is_empty (JS.trimEnd s) = blank s.
Proof.
  induction n as [|n IH]; intros s Hlen.
  { destruct s; [reflexivity|cbn in Hlen; lia]. }
  destruct s as [|a r1]; [reflexivity|]. cbn [String.length] in Hlen.
  rewrite trimEnd_step, blank_step.
  destruct (JS.is_whitespace1 a).
  { rewrite <- (IH r1) by lia. destruct (JS.is_empty (JS.trimEnd r1)); reflexivity. }
  destruct r1 as [|b r2]; [reflexivity|]. cbn [String.length] in Hlen.
  destruct (JS.is_whitespace2 a b).
  { rewrite <- (IH r2) by lia. destruct (JS.is_empty (JS.trimEnd r2)); reflexivity. }
  destruct r2 as [|c r3]; [reflexivity|]. cbn [String.length] in Hlen.
  destruct (JS.is_whitespace3 a b c); [|reflexivity].
  rewrite <- (IH r3) by lia. destruct (JS.is_empty (JS.trimEnd r3)); reflexivity.
Qed.

Lemma trimEnd_empty (s : string) :
  Nat.eqb (String.length (JS.trimEnd s)) 0 = blank s.
Proof. rewrite is_empty_length. now apply (trimEnd_blank_upto (String.length s)). Qed.

Lemma blank_trimStart_upto (n : nat) :
  forall s, String.length s <= n -> blank (JS.trimStart s) = blank s.
Proof.
  induction n as [|n IH]; intros s Hlen.
  { destruct s; [reflexivity|cbn in Hlen; lia]. }
  destruct s as [|a r1]; [reflexivity|]. cbn [String.length] in Hlen.
  rewrite trimStart_step.
  destruct (JS.is_whitespace1 a) eqn:Ha.
  { rewrite (blank_step a r1), Ha. apply IH. lia. }
  destruct r1 as [|b r2]; [reflexivity|]. cbn [String.length] in Hlen.
  destruct (JS.is_whitespace2 a b) eqn:Hb.
  { rewrite (blank_step a (String b r2)), Ha, Hb. apply IH. lia. }
  destruct r2 as [|c r3]; [reflexivity|]. cbn [String.length] in Hlen.
  destruct (JS.is_whitespace3 a b c) eqn:Hc; [|reflexivity].
  rewrite (blank_step a (String b (String c r3))), Ha, Hb, Hc. apply IH. lia.
Qed.

Lemma blank_trimStart (s : string) : blank (JS.trimStart s) = blank s.
Proof. now apply (blank_trimStart_upto (String.length s)). Qed.

Lemma trim_empty (s : string) :
  Nat.eqb (String.length (JS.trim s)) 0 = blank s.
Proof. unfold JS.trim. now rewrite trimEnd_empty, blank_trimStart. Qed.

Lemma required_check (s : string) :
  JS.not_str s || Nat.eqb (String.length (JS.trim s)) 0 = blank s.
Proof.
  rewrite trim_empty. destruct s as [|a r]; [reflexivity|]. reflexivity.
Qed.

(** X1: [createSession] throws "Location is required" exactly when the
    location has no character other than white space. *)
Theorem location_required_iff_blank (d : CreateSessionDTO.t) :
  SessionService.createSession d = throw "Location is required"
  <-> blank (CreateSessionDTO.location d) = true.
Proof.
  unfold SessionService.createSession. rewrite required_check.
  destruct (blank _); [tauto|].
  split; [|discriminate].
  repeat match goal with
         | |- context [if ?c then _ else _] => destruct c
         end; discriminate.
Qed.

(** X2: update validation is create validation without the location and
    negative-speed checks: an update payload with every field present is
    accepted exactly when its wind speeds, hours and rating pass their three
    checks, so whatever passes create validation passes update validation
    as an update. *)
Theorem update_accepts_what_create_accepts (id : string) (d : CreateSessionDTO.t) :
  (SessionService.updateSession id (as_update d) = call (session_update id (as_update d))
   <-> JS.gt (CreateSessionDTO.wind_speed_min d) (CreateSessionDTO.wind_speed_max d) = false
       /\ JS.le (CreateSessionDTO.hours_on_water d) (Fin 0)
          || JS.gt (CreateSessionDTO.hours_on_water d) (Fin 12) = false
       /\ JS.lt (CreateSessionDTO.performance_rating d) (Fin 1)
          || JS.gt (CreateSessionDTO.performance_rating d) (Fin 5) = false)
  /\ (SessionService.createSession d = call (session_create d) ->
      SessionService.updateSession id (as_update d)
      = call (session_update id (as_update d))).
Proof.
  split.
  - exact (updateSession_passes id (as_update d)).
  - intros H. apply createSession_passes in H. apply updateSession_passes.
    destruct H as (_ & _ & A & B & C). exact (conj A (conj B C)).
Qed.

Lemma update_accepts_what_create_accepts_witness :
  SessionService.updateSession "s-1"
    (as_update (sample_create (Fin 10) (Fin 15) (Fin 3) (Fin 3)))
  = call (session_update "s-1"
            (as_update (sample_create (Fin 10) (Fin 15) (Fin 3) (Fin 3)))).
Proof.
  exact (proj2 (update_accepts_what_create_accepts "s-1"
                  (sample_create (Fin 10) (Fin 15) (Fin 3) (Fin 3))) eq_refl).
Defined.

(** X3: [createEquipment] accepts a name exactly when it has a character
    other than white space and a length of at most 100 UTF-16 code units;
    [updateEquipment] accepts a name that is present on the same condition,
    and checks nothing when the name is absent. *)
Theorem equipment_name_validation (d : CreateEquipmentDTO.t)
    (id : string) (u : UpdateEquipmentDTO.t) :
  (EquipmentService.createEquipment d = call (equipment_create d)
   <-> blank (CreateEquipmentDTO.name d) = false
       /\ JS.length (CreateEquipmentDTO.name d) <= 100)
  /\ (forall name, UpdateEquipmentDTO.name u = Some name ->
        (EquipmentService.updateEquipment id u = call (equipment_update id u)
         <-> blank name = false /\ JS.length name <= 100))
  /\ (UpdateEquipmentDTO.name u = None ->
      EquipmentService.updateEquipment id u = call (equipment_update id u)).
Proof.
  split; [|split].
  - unfold EquipmentService.createEquipment. rewrite required_check.
    destruct (blank _).
    { split; [discriminate|]. intros [Hf _]; discriminate Hf. }
    destruct (Nat.ltb_spec 100 (JS.length (CreateEquipmentDTO.name d))).
    + split; [discriminate|]. intros [_ Hle]. lia.
    + split; [|reflexivity]. intros _. split; [reflexivity|assumption].
  - intros name Hn. unfold EquipmentService.updateEquipment. rewrite Hn, trim_empty.
    destruct (blank name).
    { split; [discriminate|]. intros [Hf _]; discriminate Hf. }
    destruct (Nat.ltb_spec 100 (JS.length name)).
    + split; [discriminate|]. intros [_ Hle]. lia.
    + split; [|reflexivity]. intros _. split; [reflexivity|assumption].
  - intros Hn. unfold EquipmentService.updateEquipment. now rewrite Hn.
Qed.

(** A name of 40 CJK characters (120 bytes, 40 code units) is accepted; a
    name of 51 characters outside the basic plane (102 code units) and a
    name of one ideographic space are not. *)
Lemma equipment_name_validation_witness :
  EquipmentService.createEquipment
    (CreateEquipmentDTO.mk (copies 40 u5E06) Mainsail "North" "3Di" None None)
  = call (equipment_create
            (CreateEquipmentDTO.mk (copies 40 u5E06) Mainsail "North" "3Di" None None))
  /\ EquipmentService.updateEquipment "eq-1"
       (UpdateEquipmentDTO.mk None (Some Jib) None None None None)
     = call (equipment_update "eq-1"
               (UpdateEquipmentDTO.mk None (Some Jib) None None None None))
  /\ EquipmentService.updateEquipment "eq-1"
       (UpdateEquipmentDTO.mk (Some (copies 51 u1F600)) None None None None None)
     <> call (equipment_update "eq-1"
                (UpdateEquipmentDTO.mk (Some (copies 51 u1F600)) None None None None None))
  /\ EquipmentService.updateEquipment "eq-1"
       (UpdateEquipmentDTO.mk (Some u3000) None None None None None)
     <> call (equipment_update "eq-1"
                (UpdateEquipmentDTO.mk (Some u3000) None None None None None)).
Proof.
  split; [|split; [|split]].
  - apply (proj1 (equipment_name_validation
                    (CreateEquipmentDTO.mk (copies 40 u5E06) Mainsail "North" "3Di"
                                           None None)
                    "eq-1" (UpdateEquipmentDTO.mk None None None None None None))).
    split; [reflexivity|]. vm_compute. lia.
  - exact (proj2 (proj2 (equipment_name_validation
                           (CreateEquipmentDTO.mk "Main" Mainsail "North" "3Di" None None)
                           "eq-1"
                           (UpdateEquipmentDTO.mk None (Some Jib) None None None None)))
             eq_refl).
  - intros H.
    apply (proj1 (proj2 (equipment_name_validation
                           (CreateEquipmentDTO.mk "Main" Mainsail "North" "3Di" None None)
                           "eq-1"
                           (UpdateEquipmentDTO.mk (Some (copies 51 u1F600)) None None
                                                  None None None)))
             (copies 51 u1F600) eq_refl) in H.
    destruct H as [_ H]. vm_compute in H. lia.
  - intros H.
    apply (proj1 (proj2 (equipment_name_validation
                           (CreateEquipmentDTO.mk "Main" Mainsail "North" "3Di" None None)
                           "eq-1"
                           (UpdateEquipmentDTO.mk (Some u3000) None None None None None)))
             u3000 eq_refl) in H.
    destruct H as [H _]. discriminate H.
Defined.

(** ** Repositories: errors, results and requests *)

Lemma run_await_call {W X A} (h : forall X, ApiClient X -> W -> result X * W)
    (e : ApiClient X) (k : X -> Async ApiClient (result A)) (w : W) :
  run h (await (call e) k) w =
  match h X e w with
  | (Resolved x, w') => run h (k x) w'
  | (Rejected err, w') => (Rejected err, w')
  end.
Proof.
  unfold await, call. cbn [bind run].
  destruct (h X e w) as [[x|err] w']; reflexivity.
Qed.

Lemma await_call_propagates {X A} (e : ApiClient X)
    (k : X -> Async ApiClient (result A)) :
  propagates e (await (call e) k).
Proof. intros W h w w' err H. now rewrite run_await_call, H. Qed.

(** X4: unlike [getById], the other repository methods do not catch: when
    their request is rejected they reject with the same error. *)
Theorem repository_methods_propagate (id : string) (d : CreateSessionDTO.t)
    (u : UpdateSessionDTO.t) (data : SettingsData.t) :
  propagates (api_post_session "/sessions" d) (SessionRepository.create d)
  /\ propagates (api_put_session ("/sessions/" +:+ id) u) (SessionRepository.update id u)
  /\ propagates (api_delete ("/sessions/" +:+ id)) (SessionRepository.delete id)
  /\ propagates (api_post_settings ("/sessions/" +:+ id +:+ "/settings") data)
                (SessionRepository.createSettings id data)
  /\ propagates (api_delete ("/equipment/" +:+ id)) (EquipmentRepository.delete id)
  /\ propagates (api_patch ("/equipment/" +:+ id +:+ "/retire"))
                (EquipmentRepository.retire id)
  /\ propagates (api_patch ("/equipment/" +:+ id +:+ "/reactivate"))
                (EquipmentRepository.reactivate id)
  /\ propagates (api_get_statistics "/equipment/analytics/stats")
                EquipmentRepository.getStatistics.
Proof.
  repeat split; try apply await_call_propagates.
  intros W h w w' err H. unfold EquipmentRepository.getStatistics, call.
  cbn [run]. unfold API_CONFIG.equipment_stats. now rewrite H.
Qed.

Lemma repository_methods_propagate_witness :
  run (apiClient backend_404)
      (SessionRepository.update "s-1" (sample_update None (Some (Fin 4))))
      (mkBrowser ∅ "/sessions")
  = (Rejected (mkError "Not found"), mkBrowser ∅ "/sessions").
Proof.
  exact (proj1 (proj2 (repository_methods_propagate "s-1"
                         (sample_create (Fin 10) (Fin 15) (Fin 3) (Fin 3))
                         (sample_update None (Some (Fin 4)))
                         (SettingsData.mk ∅ None)))
           Browser (apiClient backend_404) (mkBrowser ∅ "/sessions")
           (mkBrowser ∅ "/sessions") (mkError "Not found") eq_refl).
Defined.

(** X5: a session that comes out of [create], [update] or [getById] has no
    equipment ids, whatever the payload's [equipment_ids] were: the
    response mapping leaves the list empty. *)
Theorem repository_sessions_have_no_equipment_ids {W}
    (h : forall X, ApiClient X -> W -> result X * W) (w w' : W) (s : Session.t) :
  (forall d, run h (SessionRepository.create d) w = (Resolved s, w') ->
             Session.equipmentIds s = [])
  /\ (forall id u, run h (SessionRepository.update id u) w = (Resolved s, w') ->
                   Session.equipmentIds s = [])
  /\ (forall id, run h (SessionRepository.getById id) w = (Resolved (Some s), w') ->
                 Session.equipmentIds s = []).
Proof.
  split; [|split].
  - intros d. unfold SessionRepository.create. rewrite run_await_call.
    destruct (h _ _ w) as [[x|err] w1]; cbn; intros [= <- _]; reflexivity.
  - intros id u. unfold SessionRepository.update. rewrite run_await_call.
    destruct (h _ _ w) as [[x|err] w1]; cbn; intros [= <- _]; reflexivity.
  - intros id. rewrite session_getById_run.
    destruct (h _ _ w) as [[x|err] w1]; intros [= <- _]; reflexivity.
Qed.

Lemma repository_sessions_have_no_equipment_ids_witness :
  Session.equipmentIds
    (SessionRepository.mapToEntity
       (SessionResponse.mk "s-9" "2024-06-01" "Kiel" (Fin 10) (Fin 15) Choppy "N"
          (Fin 3) (Fin 4) None "u-1" "t0" "t0")) = [].
Proof.
  refine (proj1 (repository_sessions_have_no_equipment_ids
                   (fun X (e : ApiClient X) (w : unit) =>
                      match e in ApiClient X return result X * unit with
                      | api_post_session _ _ =>
                          (Resolved
                             (SessionResponse.mk "s-9" "2024-06-01" "Kiel" (Fin 10) (Fin 15)
                                Choppy "N" (Fin 3) (Fin 4) None "u-1" "t0" "t0"), w)
                      | _ => (Rejected (mkError "unavailable"), w)
                      end)
                   tt tt _)
            (CreateSessionDTO.mk "2024-06-01" "Kiel" (Fin 10) (Fin 15) Choppy "N"
               (Fin 3) (Fin 4) None (Some ["eq-1"; "eq-2"])) _).
  reflexivity.
Defined.

(** X6: through the default repository, [createSession], [updateSession]
    and [createEquipmentSettings] send no request when validation throws,
    and exactly one request otherwise. *)
Theorem validation_gates_the_request {W}
    (h : forall X, ApiClient X -> W -> result X * W) (w : W) :
  (forall d,
     let n := calls h (interp SessionRepository.impl (SessionService.createSession d)) w in
     ((exists msg, SessionService.createSession d = throw msg) /\ n = 0%nat)
     \/ (SessionService.createSession d = call (session_create d) /\ n = 1%nat))
  /\ (forall id u,
        let n := calls h (interp SessionRepository.impl
                            (SessionService.updateSession id u)) w in
        ((exists msg, SessionService.updateSession id u = throw msg) /\ n = 0%nat)
        \/ (SessionService.updateSession id u = call (session_update id u) /\ n = 1%nat))
  /\ (forall id data,
        let n := calls h (interp SessionRepository.impl
                            (SessionService.createEquipmentSettings id data)) w in
        ((exists msg, SessionService.createEquipmentSettings id data = throw msg)
         /\ n = 0%nat)
        \/ (SessionService.createEquipmentSettings id data
            = call (session_createSettings id data) /\ n = 1%nat)).
Proof.
  assert (Hone : forall X A (e : ApiClient X) (k : X -> A),
             calls h (bind (await (call e) (fun x => ret (k x))) Done) w = 1%nat).
  { intros X A e k. unfold await, call, ret. cbn [bind calls].
    destruct (h X e w) as [[x|err] w1]; reflexivity. }
  split; [|split]; cbv zeta.
  - intros d. destruct (createSession_throws_or_calls d) as [[msg H]|H]; rewrite H.
    + left. split; [eauto|reflexivity].
    + right. split; [reflexivity|].
      cbn [call interp SessionRepository.impl]. apply Hone.
  - intros id u. destruct (updateSession_throws_or_calls id u) as [[msg H]|H]; rewrite H.
    + left. split; [eauto|reflexivity].
    + right. split; [reflexivity|].
      cbn [call interp SessionRepository.impl]. apply Hone.
  - intros id data. unfold SessionService.createEquipmentSettings.
    destruct (SessionService.check_tensions _ _) as [msg|].
    { left. split; [eauto|reflexivity]. }
    match goal with
    | |- context [if ?c then _ else _] => destruct c
    end.
    + left. split; [eauto|reflexivity].
    + right. split; [reflexivity|].
      cbn [call interp SessionRepository.impl]. apply Hone.
Qed.

(** ** Aggregates of validated sessions *)








(** ** Derived getters of the entities *)

Lemma le_trans (a b c : number) :
  JS.le a b = true -> JS.le b c = true -> JS.le a c = true.
Proof.
  destruct a as [p| | |], b as [q| | |], c as [r| | |]; simpl; try congruence.
  rewrite !Qle_bool_iff. apply Qle_trans.
Qed.

Lemma le_lt_trans (a b c : number) :
  JS.le a b = true -> JS.lt b c = true -> JS.lt a c = true.
Proof.
  destruct a as [p| | |], b as [q| | |], c as [r| | |]; simpl; try congruence.
  rewrite Qle_bool_iff, !Qlt_bool_iff. apply Qle_lt_trans.
Qed.

Lemma good_poor_exclusive (s : Session.t) :
  Session.isGoodPerformance s && Session.isPoorPerformance s = false.
Proof.
  unfold Session.isGoodPerformance, Session.isPoorPerformance, JS.ge.
  destruct (JS.le (Fin 4) _) eqn:H4, (JS.le _ (Fin 2)) eqn:H2; try reflexivity.
  pose proof (le_trans _ _ _ H4 H2) as H. discriminate H.
Qed.

(** X11: [getTopRatedSessions] returns the sessions rated at least the
    threshold; raising the threshold only removes sessions, a session with
    a NaN rating is never returned, and with the default threshold 4 no
    returned session [isPoorPerformance]. *)
Theorem top_rated_sessions (sessions : list Session.t) (s : Session.t) :
  (forall lo hi, JS.le lo hi = true ->
                 In s (SessionService.getTopRatedSessions sessions hi) ->
                 In s (SessionService.getTopRatedSessions sessions lo))
  /\ (forall minRating, Session.performanceRating s = NaN ->
                        ~ In s (SessionService.getTopRatedSessions sessions minRating))
  /\ (In s (SessionService.getTopRatedSessions sessions (Fin 4)) ->
      Session.isGoodPerformance s = true /\ Session.isPoorPerformance s = false).
Proof.
  unfold SessionService.getTopRatedSessions. split; [|split].
  - intros lo hi Hle. rewrite !filter_In. intros [Hin Hge]. split; [assumption|].
    unfold JS.ge in *. eapply le_trans; eassumption.
  - intros m Hnan. rewrite filter_In. intros [_ Hge]. rewrite Hnan in Hge.
    unfold JS.ge in Hge. destruct m; discriminate Hge.
  - rewrite filter_In. intros [_ Hge].
    pose proof (good_poor_exclusive s) as Hex.
    unfold Session.isGoodPerformance in *. rewrite Hge in Hex |- *.
    split; [reflexivity|exact Hex].
Qed.

Lemma top_rated_sessions_witness :
  In (sample_session (Fin 5))
     (SessionService.getTopRatedSessions
        [sample_session (Fin 2); sample_session (Fin 5)] (Fin 3))
  /\ Session.isPoorPerformance (sample_session (Fin 5)) = false.
Proof.
  pose proof (top_rated_sessions [sample_session (Fin 2); sample_session (Fin 5)]
                (sample_session (Fin 5))) as (Hmono & _ & Hdef).
  assert (H4 : In (sample_session (Fin 5))
                  (SessionService.getTopRatedSessions
                     [sample_session (Fin 2); sample_session (Fin 5)] (Fin 4)))
    by (left; reflexivity).
  split.
  - exact (Hmono (Fin 3) (Fin 4) eq_refl H4).
  - exact (proj2 (Hdef H4)).
Defined.

(** X12: no equipment settings are both a heavy-weather and a light-weather
    setup. *)
Theorem setups_exclusive (this : EquipmentSettings.t) :
  EquipmentSettings.isHeavyWeatherSetup this
  && EquipmentSettings.isLightWeatherSetup this = false.
Proof.
  unfold EquipmentSettings.isHeavyWeatherSetup, EquipmentSettings.isLightWeatherSetup.
  destruct (JS.gt (EquipmentSettings.forestayTension this) (Fin 7)) eqn:Hgt;
    [|reflexivity].
  destruct (JS.lt (EquipmentSettings.forestayTension this) (Fin 4)) eqn:Hlt;
    [|now rewrite andb_false_r].
  exfalso. apply gt_Fin in Hgt. apply lt_Fin in Hlt.
  destruct Hgt as [Hg|[p [Hg Hp]]], Hlt as [Hl|[q [Hl Hq]]]; try congruence.
  rewrite Hg in Hl. injection Hl as <-. lra.
Qed.

(** X13: equipment whose age is unknown, 0 or NaN is never old, whatever
    the threshold; equipment that is old for a threshold is old for every
    lower one, so lowering the threshold of [getOldEquipment] only adds
    equipment. *)
Theorem old_equipment (equipment : list Equipment.t) (e : Equipment.t) :
  (forall t, (Equipment.ageInDays e = None
              \/ Equipment.ageInDays e = Some (Fin 0)
              \/ Equipment.ageInDays e = Some NaN) ->
             Equipment.isOld e t = false)
  /\ (forall lo hi, JS.le lo hi = true ->
                    In e (EquipmentService.getOldEquipment equipment (Some hi)) ->
                    In e (EquipmentService.getOldEquipment equipment (Some lo)))
  /\ (In e (EquipmentService.getOldEquipment equipment None) <->
      In e equipment /\ Equipment.isOld e (Fin 730) = true).
Proof.
  split; [|split].
  - intros t [H|[H|H]]; unfold Equipment.isOld; rewrite H; reflexivity.
  - intros lo hi Hle. unfold EquipmentService.getOldEquipment. rewrite !filter_In.
    cbn [default]. intros [Hin Hold]. split; [assumption|].
    unfold Equipment.isOld in *. destruct (Equipment.ageInDays e) as [a|]; [|discriminate].
    destruct (JS.truthy a); [|discriminate].
    unfold JS.gt in *. eapply le_lt_trans; eassumption.
  - unfold EquipmentService.getOldEquipment. rewrite filter_In. reflexivity.
Qed.

Lemma old_equipment_witness :
  Equipment.isOld (sample_equipment "eq-1" "Main" true) (Fin 365) = true
  /\ Equipment.isOld
       (Equipment.mk "eq-3" "Boom" Boom "Selden" "B1" None None true (Fin 0) "u-1"
                     "t0" "t0" (Some (Fin 0)) None) (Fin (-1)) = false.
Proof.
  split.
  - pose proof (proj1 (proj2 (old_equipment [sample_equipment "eq-1" "Main" true]
                                (sample_equipment "eq-1" "Main" true)))
                  (Fin 365) (Fin 399) eq_refl) as H.
    unfold EquipmentService.getOldEquipment in H. rewrite !filter_In in H.
    exact (proj2 (H (conj (or_introl eq_refl) eq_refl))).
  - apply (proj1 (old_equipment [] _)). right; left; reflexivity.
Defined.

(** X14: [groupEquipmentByType] maps the name of a type to the equipment of
    that type, in the order of the input; a name without equipment has no
    entry (no group is empty). *)
Theorem groups_are_filters (equipment : list Equipment.t) (key : string) :
  EquipmentService.groupEquipmentByType equipment !! key
  = match List.filter
            (fun e => String.eqb (EquipmentType_name (Equipment.type e)) key)
            equipment with
    | [] => None
    | group => Some group
    end.
Proof.
  unfold EquipmentService.groupEquipmentByType.
  induction equipment as [|e l IH] using rev_ind; [reflexivity|].
  rewrite fold_left_app, List.filter_app. cbn [fold_left List.filter].
  set (acc := fold_left _ l ∅) in *.
  destruct (String.eqb_spec (EquipmentType_name (Equipment.type e)) key) as [<-|Hne].
  - rewrite IH.
    destruct (List.filter _ l) as [|x g]; rewrite lookup_insert_eq; reflexivity.
  - rewrite app_nil_r.
    destruct (acc !! EquipmentType_name (Equipment.type e));
      rewrite lookup_insert_ne by assumption; exact IH.
Qed.

(** ** The session hook *)

Lemma deleteSession_run {W} (h : forall X, ApiClient X -> W -> result X * W)
    (id : string) (st : useSessions.State) (w : W) :
  run h (useSessions.deleteSession id st) w =
  match h _ (api_delete ("/sessions/" +:+ id)) w with
  | (Resolved _, w') =>
      ((Resolved tt,
        useSessions.mkState
          (List.filter (fun s => negb (String.eqb (Session.id s) id))
                       (useSessions.sessions st))
          (useSessions.loading st) None), w')
  | (Rejected err, w') =>
      ((Rejected err,
        useSessions.mkState (useSessions.sessions st) (useSessions.loading st)
                            (Some (message err))), w')
  end.
Proof.
  unfold useSessions.deleteSession, useSessions.sessionService.
  cbn [SessionService.deleteSession call interp SessionRepository.impl
       SessionRepository.delete await bind run].
  change (SessionRepository.basePath +:+ "/" +:+ id) with ("/sessions/" +:+ id).
  destruct (h _ _ w) as [[[]|err] w']; reflexivity.
Qed.

Lemma updateSession_run {W} (h : forall X, ApiClient X -> W -> result X * W)
    (id : string) (u : UpdateSessionDTO.t) (st : useSessions.State) (w : W) :
  SessionService.updateSession id u = call (session_update id u) ->
  run h (useSessions.updateSession id u st) w =
  match h _ (api_put_session ("/sessions/" +:+ id) u) w with
  | (Resolved response, w') =>
      ((Resolved (SessionRepository.mapToEntity response),
        useSessions.mkState
          (map (fun s => if String.eqb (Session.id s) id
                         then SessionRepository.mapToEntity response else s)
               (useSessions.sessions st))
          (useSessions.loading st) None), w')
  | (Rejected err, w') =>
      ((Rejected err,
        useSessions.mkState (useSessions.sessions st) (useSessions.loading st)
                            (Some (message err))), w')
  end.
Proof.
  intros Hpass. unfold useSessions.updateSession, useSessions.sessionService.
  rewrite Hpass.
  cbn [call interp SessionRepository.impl SessionRepository.update await bind run].
  change (SessionRepository.basePath +:+ "/" +:+ id) with ("/sessions/" +:+ id).
  destruct (h _ _ w) as [[response|err] w']; reflexivity.
Qed.

Lemma createSession_run {W} (h : forall X, ApiClient X -> W -> result X * W)
    (d : CreateSessionDTO.t) (st : useSessions.State) (w : W) :
  SessionService.createSession d = call (session_create d) ->
  run h (useSessions.createSession d st) w =
  match h _ (api_post_session "/sessions" d) w with
  | (Resolved response, w') =>
      ((Resolved (SessionRepository.mapToEntity response),
        useSessions.mkState
          (SessionRepository.mapToEntity response :: useSessions.sessions st)
          (useSessions.loading st) None), w')
  | (Rejected err, w') =>
      ((Rejected err,
        useSessions.mkState (useSessions.sessions st) (useSessions.loading st)
                            (Some (message err))), w')
  end.
Proof.
  intros Hpass. unfold useSessions.createSession, useSessions.sessionService.
  rewrite Hpass.
  cbn [call interp SessionRepository.impl SessionRepository.create await bind run].
  change SessionRepository.basePath with "/sessions".
  destruct (h _ _ w) as [[response|err] w']; reflexivity.
Qed.

(** X15: when the payload fails validation, the hook's [createSession] and
    [updateSession] send no request, reject with the validation error, store
    its message in [error] and leave the sessions as they were. *)
Theorem hook_validation_failure {W} (h : forall X, ApiClient X -> W -> result X * W)
    (w : W) (st : useSessions.State) (msg : string) :
  (forall d, SessionService.createSession d = throw msg ->
     run h (useSessions.createSession d st) w
     = ((Rejected (mkError msg),
         useSessions.mkState (useSessions.sessions st) (useSessions.loading st)
                             (Some msg)), w)
     /\ calls h (useSessions.createSession d st) w = 0%nat)
  /\ (forall id u, SessionService.updateSession id u = throw msg ->
        run h (useSessions.updateSession id u st) w
        = ((Rejected (mkError msg),
            useSessions.mkState (useSessions.sessions st) (useSessions.loading st)
                                (Some msg)), w)
        /\ calls h (useSessions.updateSession id u st) w = 0%nat).
Proof.
  split.
  - intros d H. unfold useSessions.createSession, useSessions.sessionService.
    rewrite H. split; reflexivity.
  - intros id u H. unfold useSessions.updateSession, useSessions.sessionService.
    rewrite H. split; reflexivity.
Qed.

Lemma hook_validation_failure_witness :
  run (apiClient backend_ok)
      (useSessions.createSession (sample_create (Fin 20) (Fin 10) (Fin 3) (Fin 3))
         (useSessions.mkState [sample_session (Fin 3)] false None))
      (mkBrowser ∅ "/sessions")
  = ((Rejected (mkError "Minimum wind speed cannot exceed maximum"),
      useSessions.mkState [sample_session (Fin 3)] false
        (Some "Minimum wind speed cannot exceed maximum")),
     mkBrowser ∅ "/sessions").
Proof.
  exact (proj1 (proj1 (hook_validation_failure (apiClient backend_ok)
                         (mkBrowser ∅ "/sessions")
                         (useSessions.mkState [sample_session (Fin 3)] false None)
                         "Minimum wind speed cannot exceed maximum")
                  (sample_create (Fin 20) (Fin 10) (Fin 3) (Fin 3)) eq_refl)).
Defined.

(** X16: a resolved [deleteSession] leaves no session with the id in the
    list and keeps every other session, in order; a rejected one leaves the
    list as it was. *)
Theorem deleteSession_outcome {W} (h : forall X, ApiClient X -> W -> result X * W)
    (w : W) (id : string) (st : useSessions.State) :
  let out := run h (useSessions.deleteSession id st) w in
  let sessions' := useSessions.sessions (snd (fst out)) in
  match fst (fst out) with
  | Resolved _ =>
      sessions' = List.filter (fun s => negb (String.eqb (Session.id s) id))
                              (useSessions.sessions st)
      /\ (forall s, In s sessions' -> Session.id s <> id)
      /\ (forall s, In s (useSessions.sessions st) -> Session.id s <> id -> In s sessions')
  | Rejected _ => sessions' = useSessions.sessions st
  end.
Proof.
  cbv zeta. rewrite deleteSession_run.
  destruct (h _ _ w) as [[[]|err] w']; cbn [fst snd useSessions.sessions];
    [|reflexivity].
  split; [reflexivity|]. split.
  - intros s Hin. apply filter_In in Hin. destruct Hin as [_ Hne].
    apply negb_true_iff, String.eqb_neq in Hne. exact Hne.
  - intros s Hin Hne. apply filter_In. split; [assumption|].
    apply negb_true_iff, String.eqb_neq. exact Hne.
Qed.

(** X17: a resolved [updateSession] keeps the length of the list, puts the
    returned session in the place of every session with the id and leaves
    the others; the returned session has no equipment ids. *)
Theorem updateSession_outcome {W} (h : forall X, ApiClient X -> W -> result X * W)
    (w w' : W) (id : string) (u : UpdateSessionDTO.t)
    (st st' : useSessions.State) (updated : Session.t) :
  run h (useSessions.updateSession id u st) w = ((Resolved updated, st'), w') ->
  length (useSessions.sessions st') = length (useSessions.sessions st)
  /\ Forall2 (fun old new => if String.eqb (Session.id old) id
                             then new = updated else new = old)
             (useSessions.sessions st) (useSessions.sessions st')
  /\ Session.equipmentIds updated = [].
Proof.
  intros Hrun.
  destruct (updateSession_throws_or_calls id u) as [[msg Hthrow]|Hpass].
  { unfold useSessions.updateSession, useSessions.sessionService in Hrun.
    rewrite Hthrow in Hrun. discriminate Hrun. }
  rewrite (updateSession_run h id u st w Hpass) in Hrun.
  destruct (h _ _ w) as [[response|err] w1]; [|discriminate Hrun].
  injection Hrun as <- <- _. cbn [useSessions.sessions].
  split; [apply length_map|]. split; [|reflexivity].
  induction (useSessions.sessions st) as [|s l IH]; cbn [map]; constructor.
  - destruct (String.eqb (Session.id s) id); reflexivity.
  - exact IH.
Qed.

Lemma updateSession_outcome_witness :
  Session.equipmentIds
    (SessionRepository.mapToEntity
       (SessionResponse.mk "s-1" "2024-06-01" "Kiel" (Fin 10) (Fin 15) Choppy "N"
          (Fin 3) (Fin 5) None "u-1" "t0" "t1")) = [].
Proof.
  refine (proj2 (proj2
            (updateSession_outcome
               (fun X (e : ApiClient X) (w : unit) =>
                  match e in ApiClient X return result X * unit with
                  | api_put_session _ _ =>
                      (Resolved
                         (SessionResponse.mk "s-1" "2024-06-01" "Kiel" (Fin 10) (Fin 15)
                            Choppy "N" (Fin 3) (Fin 5) None "u-1" "t0" "t1"), w)
                  | _ => (Rejected (mkError "unavailable"), w)
                  end)
               tt tt "s-1" (sample_update None (Some (Fin 5)))
               (useSessions.mkState [sample_session (Fin 3)] false None)
               _ _ _))).
  reflexivity.
Defined.

(** ** Error state of the hooks *)

Ltac run_equipment_action h w :=
  cbv zeta;
  unfold useEquipment.retireEquipment, useEquipment.reactivateEquipment,
    useEquipment.deleteEquipment, useEquipment.equipmentService;
  cbn [EquipmentService.retireEquipment EquipmentService.reactivateEquipment
       EquipmentService.deleteEquipment EquipmentService.getEquipmentStatistics
       call interp EquipmentRepository.impl EquipmentRepository.retire
       EquipmentRepository.reactivate EquipmentRepository.delete
       EquipmentRepository.getStatistics await bind run];
  let w1 := fresh "w" in
  destruct (h _ _ w) as [[[]|?] w1]; cbn; [|try reflexivity];
  try match goal with
      | |- context [useEquipment.find ?o ?l ?i] =>
          destruct (useEquipment.find o l i); cbn
      end;
  try (destruct (h _ (api_get_statistics _) w1) as [[?|?] ?]; cbn).

(** X18: after every action of the two hooks the [error] cell mirrors the
    promise: it is [null] when the action resolved and the message of the
    error when it was rejected. *)
Theorem error_mirrors_outcome {W} (h : forall X, ApiClient X -> W -> result X * W)
    (w : W) (id : string) :
  (forall equipment st objects,
     let out := run h (useEquipment.retireEquipment equipment id st objects) w in
     useEquipment.error (fst (snd (fst out)))
     = match fst (fst out) with
       | Resolved _ => None
       | Rejected err => Some (message err)
       end)
  /\ (forall equipment st objects,
        let out := run h (useEquipment.reactivateEquipment equipment id st objects) w in
        useEquipment.error (fst (snd (fst out)))
        = match fst (fst out) with
          | Resolved _ => None
          | Rejected err => Some (message err)
          end)
  /\ (forall st objects,
        let out := run h (useEquipment.deleteEquipment id st objects) w in
        useEquipment.error (fst (snd (fst out)))
        = match fst (fst out) with
          | Resolved _ => None
          | Rejected err => Some (message err)
          end)
  /\ (forall d st,
        let out := run h (useSessions.createSession d st) w in
        useSessions.error (snd (fst out))
        = match fst (fst out) with
          | Resolved _ => None
          | Rejected err => Some (message err)
          end)
  /\ (forall u st,
        let out := run h (useSessions.updateSession id u st) w in
        useSessions.error (snd (fst out))
        = match fst (fst out) with
          | Resolved _ => None
          | Rejected err => Some (message err)
          end)
  /\ (forall st,
        let out := run h (useSessions.deleteSession id st) w in
        useSessions.error (snd (fst out))
        = match fst (fst out) with
          | Resolved _ => None
          | Rejected err => Some (message err)
          end).
Proof.
  split; [|split; [|split; [|split; [|split]]]].
  - intros equipment st objects. run_equipment_action h w; reflexivity.
  - intros equipment st objects. run_equipment_action h w; reflexivity.
  - intros st objects. run_equipment_action h w; reflexivity.
  - intros d st. cbv zeta.
    destruct (createSession_throws_or_calls d) as [[msg H]|H].
    + unfold useSessions.createSession, useSessions.sessionService. rewrite H.
      reflexivity.
    + rewrite (createSession_run h d st w H).
      destruct (h _ _ w) as [[response|err] w1]; reflexivity.
  - intros u st. cbv zeta.
    destruct (updateSession_throws_or_calls id u) as [[msg H]|H].
    + unfold useSessions.updateSession, useSessions.sessionService. rewrite H.
      reflexivity.
    + rewrite (updateSession_run h id u st w H).
      destruct (h _ _ w) as [[response|err] w1]; reflexivity.
  - intros st. cbv zeta. rewrite deleteSession_run.
    destruct (h _ _ w) as [[[]|err] w1]; reflexivity.
Qed.

(** ** Outcomes of the equipment actions *)

(** X19: when the retire request is rejected, [retireEquipment] changes
    neither an object nor the list nor the statistics.  When the request
    resolves and the refresh of the statistics is rejected, the action
    rejects although [active = false] has already been written to the entry
    found; the statistics stay as they were. *)
Theorem retire_failure_modes {W} (h : forall X, ApiClient X -> W -> result X * W)
    (w w1 w2 : W) (id : string) (equipment : list useEquipment.ref)
    (st : useEquipment.State) (objects : gmap positive Equipment.t) (err : Error) :
  (h _ (api_patch ("/equipment/" +:+ id +:+ "/retire")) w = (Rejected err, w1) ->
   run h (useEquipment.retireEquipment equipment id st objects) w
   = ((Rejected err,
       (useEquipment.mkState (useEquipment.equipment st) (useEquipment.loading st)
          (Some (message err)) (useEquipment.statistics st),
        objects)), w1))
  /\ (h _ (api_patch ("/equipment/" +:+ id +:+ "/retire")) w = (Resolved tt, w1) ->
      h _ (api_get_statistics "/equipment/analytics/stats") w1 = (Rejected err, w2) ->
      forall r, useEquipment.find objects equipment id = Some r ->
      run h (useEquipment.retireEquipment equipment id st objects) w
      = ((Rejected err,
          (useEquipment.mkState (useEquipment.equipment st) (useEquipment.loading st)
             (Some (message err)) (useEquipment.statistics st),
           alter (Equipment.set_active false) r objects)), w2)).
Proof.
  split.
  - intros Hp.
    unfold useEquipment.retireEquipment, useEquipment.equipmentService.
    cbn [EquipmentService.retireEquipment call interp EquipmentRepository.impl
         EquipmentRepository.retire await bind run].
    change (API_CONFIG.equipment_retire id) with ("/equipment/" +:+ id +:+ "/retire").
    rewrite Hp. reflexivity.
  - intros Hp Hs r Hfind.
    unfold useEquipment.retireEquipment, useEquipment.equipmentService.
    cbn [EquipmentService.retireEquipment EquipmentService.getEquipmentStatistics
         call interp EquipmentRepository.impl EquipmentRepository.retire
         EquipmentRepository.getStatistics await bind run].
    change (API_CONFIG.equipment_retire id) with ("/equipment/" +:+ id +:+ "/retire").
    rewrite Hp. cbn. rewrite Hfind. cbn.
    change API_CONFIG.equipment_stats with "/equipment/analytics/stats".
    rewrite Hs. reflexivity.
Qed.

Lemma retire_failure_modes_witness :
  fst (run (apiClient backend_404)
         (useEquipment.retireEquipment [1%positive; 2%positive] "eq-1"
            sample_state sample_objects)
         (mkBrowser ∅ "/equipment"))
  = (Rejected (mkError "Not found"),
     (useEquipment.mkState [1%positive; 2%positive] false (Some "Not found") None,
      sample_objects)).
Proof.
  rewrite (proj1 (retire_failure_modes (apiClient backend_404)
                    (mkBrowser ∅ "/equipment") (mkBrowser ∅ "/equipment")
                    (mkBrowser ∅ "/equipment") "eq-1" [1%positive; 2%positive]
                    sample_state sample_objects (mkError "Not found")) eq_refl).
  reflexivity.
Defined.

(** X20: retiring twice is retiring once: when both calls resolve, the
    second leaves the objects as the first left them; and a resolved call
    for an id that no entry of the list has changes no object. *)
Theorem retire_is_idempotent {W} (h : forall X, ApiClient X -> W -> result X * W)
    (w : W) (id : string) (st : useEquipment.State)
    (objects : gmap positive Equipment.t) :
  let once :=
    run h (useEquipment.retireEquipment (useEquipment.equipment st) id st objects) w in
  let st1 := fst (snd (fst once)) in
  let objects1 := snd (snd (fst once)) in
  let twice :=
    run h (useEquipment.retireEquipment (useEquipment.equipment st1) id st1 objects1)
        (snd once) in
  fst (fst once) = Resolved tt ->
  (useEquipment.find objects (useEquipment.equipment st) id = None ->
   objects1 = objects)
  /\ (fst (fst twice) = Resolved tt -> snd (snd (fst twice)) = objects1).
Proof.
  intros once st1 objects1 twice Hres1.
  destruct (retire_resolved h _ id st objects w Hres1) as [Ho1 Hl1].
  fold once in Ho1, Hl1. fold objects1 in Ho1. fold st1 in Hl1.
  split.
  - intros Hnone. now rewrite Hnone in Ho1.
  - intros Hres2.
    destruct (retire_resolved h _ id st1 objects1 (snd once) Hres2) as [Ho2 _].
    fold twice in Ho2. rewrite Ho2, Hl1, Ho1.
    destruct (useEquipment.find objects (useEquipment.equipment st) id) as [r|] eqn:Hf.
    + rewrite find_after_write, Hf. apply map_eq. intros i.
      destruct (decide (r = i)) as [<-|Hne].
      * rewrite !lookup_alter_eq. destruct (objects !! r); reflexivity.
      * rewrite !lookup_alter_ne by assumption. reflexivity.
    + now rewrite Hf.
Qed.

Lemma retire_is_idempotent_witness :
  let once :=
    run (apiClient backend_ok)
        (useEquipment.retireEquipment [1%positive; 2%positive] "eq-1"
           sample_state sample_objects)
        (mkBrowser ∅ "/equipment") in
  let twice :=
    run (apiClient backend_ok)
        (useEquipment.retireEquipment
           (useEquipment.equipment (fst (snd (fst once)))) "eq-1"
           (fst (snd (fst once))) (snd (snd (fst once))))
        (snd once) in
  snd (snd (fst twice)) = snd (snd (fst once)).
Proof.
  cbv zeta.
  refine (proj2 (retire_is_idempotent (apiClient backend_ok) (mkBrowser ∅ "/equipment")
                   "eq-1" sample_state sample_objects _) _);
    vm_compute; reflexivity.
Defined.

(** X21: [deleteEquipment] never writes to an object.  When it resolves,
    the list is the old list without the entries that have the id, in
    order: no entry with the id is left and every other entry is kept.
    When the delete request is rejected the list is unchanged. *)
Theorem deleteEquipment_outcome {W} (h : forall X, ApiClient X -> W -> result X * W)
    (w : W) (id : string) (st : useEquipment.State)
    (objects : gmap positive Equipment.t) :
  let out := run h (useEquipment.deleteEquipment id st objects) w in
  let equipment' := useEquipment.equipment (fst (snd (fst out))) in
  snd (snd (fst out)) = objects
  /\ (fst (fst out) = Resolved tt ->
      equipment' = useEquipment.without objects id (useEquipment.equipment st)
      /\ (forall r e, In r equipment' -> objects !! r = Some e -> Equipment.id e <> id)
      /\ (forall r e, In r (useEquipment.equipment st) -> objects !! r = Some e ->
                      Equipment.id e <> id -> In r equipment'))
  /\ (forall err w1,
        h _ (api_delete ("/equipment/" +:+ id)) w = (Rejected err, w1) ->
        equipment' = useEquipment.equipment st).
Proof.
  assert (Hw : forall l,
            (forall r e, In r (useEquipment.without objects id l) ->
                         objects !! r = Some e -> Equipment.id e <> id)
            /\ (forall r e, In r l -> objects !! r = Some e -> Equipment.id e <> id ->
                            In r (useEquipment.without objects id l))).
  { intros l. unfold useEquipment.without. split.
    - intros r e Hin He. apply filter_In in Hin. destruct Hin as [_ Hne].
      rewrite He in Hne. apply negb_true_iff, String.eqb_neq in Hne. exact Hne.
    - intros r e Hin He Hne. apply filter_In. split; [assumption|].
      rewrite He. apply negb_true_iff, String.eqb_neq. exact Hne. }
  cbv zeta.
  unfold useEquipment.deleteEquipment, useEquipment.equipmentService.
  cbn [EquipmentService.deleteEquipment EquipmentService.getEquipmentStatistics
       call interp EquipmentRepository.impl EquipmentRepository.delete
       EquipmentRepository.getStatistics await bind run].
  change (EquipmentRepository.basePath +:+ "/" +:+ id) with ("/equipment/" +:+ id).
  destruct (h _ (api_delete _) w) as [[[]|err0] w0]; cbn.
  - destruct (h _ (api_get_statistics _) w0) as [[s|err1] w2]; cbn.
    + split; [reflexivity|]. split; [|discriminate].
      intros _. split; [reflexivity|]. apply Hw.
    + split; [reflexivity|]. split; discriminate.
  - split; [reflexivity|]. split; [discriminate|]. reflexivity.
Qed.

Lemma deleteEquipment_outcome_witness :
  useEquipment.equipment
    (fst (snd (fst (run (apiClient backend_ok)
                      (useEquipment.deleteEquipment "eq-1" sample_state sample_objects)
                      (mkBrowser ∅ "/equipment")))))
  = useEquipment.without sample_objects "eq-1" [1%positive; 2%positive].
Proof.
  refine (proj1 (proj1 (proj2 (deleteEquipment_outcome (apiClient backend_ok)
                                 (mkBrowser ∅ "/equipment") "eq-1"
                                 sample_state sample_objects)) _)).
  vm_compute. reflexivity.
Defined.

(** ** The response interceptor and the token storage *)

Lemma or_str_nonempty (a : option string) (b : string) :
  b <> "" -> JS.or_str a b <> "".
Proof.
  intros Hb. unfold JS.or_str. destruct a as [s|]; [|assumption].
  destruct s; [exact Hb|discriminate].
Qed.

Lemma or_str_left (s b : string) : s <> "" -> JS.or_str (Some s) b = s.
Proof. destruct s; [congruence|reflexivity]. Qed.

Lemma or_any_nonempty (a : JS.any) (b : string) :
  (a = JS.undefined \/ exists s, a = JS.str s) -> b <> "" -> JS.or_any a b <> "".
Proof.
  intros [-> | [s ->]] Hb; unfold JS.or_any; cbn; [assumption|].
  destruct s; [exact Hb|discriminate].
Qed.

(** X22: the message of the error the response interceptor rejects with is
    the string conversion of the first truthy value among the response
    body's [detail], the body's [message] and the transport error's
    message, and "An unexpected error occurred" when there is none.  It is
    not empty when [detail] and [message] are strings or absent; a truthy
    value that is not a string gives whatever it converts to. *)
Theorem interceptor_message (error : AxiosError.t) (b : Browser) :
  let msg := message (fst (interceptors.onResponseError error b)) in
  (JS.to_boolean (AxiosError.detail error) = true ->
   msg = JS.to_string (AxiosError.detail error))
  /\ (JS.to_boolean (AxiosError.detail error) = false ->
      (JS.to_boolean (AxiosError.data_message error) = true ->
       msg = JS.to_string (AxiosError.data_message error))
      /\ (JS.to_boolean (AxiosError.data_message error) = false ->
          (AxiosError.error_message error <> "" -> msg = AxiosError.error_message error)
          /\ (AxiosError.error_message error = "" ->
              msg = "An unexpected error occurred")))
  /\ ((AxiosError.detail error = JS.undefined
       \/ exists s, AxiosError.detail error = JS.str s) ->
      (AxiosError.data_message error = JS.undefined
       \/ exists s, AxiosError.data_message error = JS.str s) ->
      msg <> "").
Proof.
  cbv zeta. unfold interceptors.onResponseError. cbn [fst message].
  split; [|split].
  - intros Hd. unfold JS.or_any. now rewrite Hd.
  - intros Hd. unfold JS.or_any. rewrite Hd. split.
    + intros Hm. now rewrite Hm.
    + intros Hm. rewrite Hm. split.
      * intros Hne. now apply or_str_left.
      * intros ->. reflexivity.
  - intros Hd Hm. apply or_any_nonempty; [assumption|].
    apply or_any_nonempty; [assumption|].
    apply or_str_nonempty. discriminate.
Qed.

(** A body whose [detail] is the empty string and whose [message] is a
    string; and a body whose [detail] is an empty array, which is truthy
    and converts to the empty string. *)
Lemma interceptor_message_witness :
  message (fst (interceptors.onResponseError
                  (AxiosError.mk (Some 422) (JS.str "") (JS.str "Invalid payload")
                                 "Request failed with status code 422")
                  (mkBrowser ∅ "/sessions")))
  = "Invalid payload"
  /\ message (fst (interceptors.onResponseError
                     (AxiosError.mk (Some 422) (JS.value true "") JS.undefined
                                    "Request failed with status code 422")
                     (mkBrowser ∅ "/sessions")))
     = "".
Proof.
  split.
  - exact (proj1 (proj1 (proj2 (interceptor_message
                                  (AxiosError.mk (Some 422) (JS.str "")
                                     (JS.str "Invalid payload")
                                     "Request failed with status code 422")
                                  (mkBrowser ∅ "/sessions")))
                    eq_refl) eq_refl).
  - exact (proj1 (interceptor_message
                    (AxiosError.mk (Some 422) (JS.value true "") JS.undefined
                       "Request failed with status code 422")
                    (mkBrowser ∅ "/sessions")) eq_refl).
Defined.

(** X23: on a 401 the response interceptor deletes the stored token and
    sends the browser to "/login", and touches no other key of the local
    storage (the stored user stays); on any other failure it leaves the
    browser as it is. *)
Theorem interceptor_session_expiry (error : AxiosError.t) (b : Browser) :
  let b' := snd (interceptors.onResponseError error b) in
  (AxiosError.status error = Some 401 ->
   TokenStorage.getToken b' = None
   /\ location_href b' = "/login"
   /\ (forall key, key <> TokenStorage.TOKEN_KEY ->
                   localStorage b' !! key = localStorage b !! key))
  /\ (AxiosError.status error <> Some 401 -> b' = b).
Proof.
  cbv zeta. unfold interceptors.onResponseError. cbn [snd]. split.
  - intros ->. cbn [TokenStorage.removeToken localStorage location_href].
    unfold TokenStorage.getToken. cbn [localStorage].
    split; [apply lookup_delete_eq|]. split; [reflexivity|].
    intros key Hne. apply lookup_delete_ne. congruence.
  - intros Hne. destruct (AxiosError.status error) as [n|]; [|reflexivity].
    destruct (decide (n = 401)) as [->|Hn]; [congruence|].
    do 402 (destruct n as [|n]; [first [reflexivity | now contradict Hn]|]).
    reflexivity.
Qed.

Lemma interceptor_session_expiry_witness :
  localStorage
    (snd (interceptors.onResponseError
            (AxiosError.mk (Some 401) (JS.str "Could not validate credentials")
                           JS.undefined "Request failed with status code 401")
            (TokenStorage.setToken "abc"
               (mkBrowser {[ TokenStorage.USER_KEY := "{}" ]} "/sessions"))))
  !! TokenStorage.USER_KEY = Some "{}"
  /\ snd (interceptors.onResponseError not_found (mkBrowser ∅ "/sessions"))
     = mkBrowser ∅ "/sessions".
Proof.
  split.
  - rewrite (proj2 (proj2 (proj1 (interceptor_session_expiry
                                    (AxiosError.mk (Some 401)
                                       (JS.str "Could not validate credentials")
                                       JS.undefined
                                       "Request failed with status code 401")
                                    (TokenStorage.setToken "abc"
                                       (mkBrowser {[ TokenStorage.USER_KEY := "{}" ]}
                                                  "/sessions")))
                             eq_refl))
               TokenStorage.USER_KEY).
    + vm_compute. reflexivity.
    + discriminate.
  - apply (proj2 (interceptor_session_expiry not_found (mkBrowser ∅ "/sessions"))).
    discriminate.
Defined.

(** X24: the token storage reads back the token it was given, reads
    nothing after [removeToken] or [clear]; [setToken] and [removeToken]
    touch no other key, and [clear] removes the stored user too and touches
    no key but these two. *)
Theorem token_storage_round_trip (b : Browser) (token : string) :
  TokenStorage.getToken (TokenStorage.setToken token b) = Some token
  /\ TokenStorage.getToken (TokenStorage.removeToken b) = None
  /\ TokenStorage.getToken (TokenStorage.removeToken (TokenStorage.setToken token b))
     = None
  /\ TokenStorage.getToken (TokenStorage.clear b) = None
  /\ localStorage (TokenStorage.clear b) !! TokenStorage.USER_KEY = None
  /\ (forall key, key <> TokenStorage.TOKEN_KEY ->
        localStorage (TokenStorage.setToken token b) !! key = localStorage b !! key
        /\ localStorage (TokenStorage.removeToken b) !! key = localStorage b !! key
        /\ (key <> TokenStorage.USER_KEY ->
            localStorage (TokenStorage.clear b) !! key = localStorage b !! key)).
Proof.
  unfold TokenStorage.getToken, TokenStorage.setToken, TokenStorage.clear,
    TokenStorage.removeUser, TokenStorage.removeToken.
  cbn [localStorage location_href].
  repeat split.
  - apply lookup_insert_eq.
  - apply lookup_delete_eq.
  - apply lookup_delete_eq.
  - rewrite lookup_delete_ne by discriminate. apply lookup_delete_eq.
  - apply lookup_delete_eq.
  - apply lookup_insert_ne. congruence.
  - apply lookup_delete_ne. congruence.
  - intros Hu. rewrite !lookup_delete_ne by congruence. reflexivity.
Qed.

Lemma token_storage_round_trip_witness :
  localStorage (TokenStorage.clear
                  (mkBrowser {[ "theme" := "dark" ]} "/sessions")) !! "theme"
  = Some "dark".
Proof.
  destruct (token_storage_round_trip (mkBrowser {[ "theme" := "dark" ]} "/sessions")
              "abc") as (_ & _ & _ & _ & _ & H).
  destruct (H "theme") as (_ & _ & Hclear); [discriminate|].
  rewrite Hclear; [vm_compute; reflexivity|discriminate].
Defined.

(** ** Wear and replacement *)

(** X25: equipment flagged [needsReplacement] is reported by
    [getEquipmentNeedingReplacement] whatever its wear; equipment within a
    wear limit of at most 500 is reported only if it is flagged; and every
    equipment whose wear is not NaN is within the wear limit 500 or
    reported. *)
Theorem wear_and_replacement (equipment : list Equipment.t) (e : Equipment.t) :
  In e equipment ->
  (Equipment.needsReplacement e = Some true ->
   In e (EquipmentService.getEquipmentNeedingReplacement equipment))
  /\ (forall maxWear, JS.le maxWear (Fin 500) = true ->
        In e (EquipmentService.getEquipmentByWear equipment maxWear) ->
        In e (EquipmentService.getEquipmentNeedingReplacement equipment) ->
        Equipment.needsReplacement e = Some true)
  /\ (Equipment.wear e <> NaN ->
      In e (EquipmentService.getEquipmentByWear equipment (Fin 500))
      \/ In e (EquipmentService.getEquipmentNeedingReplacement equipment)).
Proof.
  intros Hin.
  unfold EquipmentService.getEquipmentNeedingReplacement,
    EquipmentService.getEquipmentByWear, Equipment.shouldReplace.
  split; [|split].
  - intros Hflag. apply filter_In. split; [assumption|].
    rewrite Hflag. apply orb_true_r.
  - intros maxWear Hmax. rewrite !filter_In. intros [_ Hle] [_ Hrep].
    rewrite (le_not_gt _ _ (le_trans _ _ _ Hle Hmax)) in Hrep.
    destruct (Equipment.needsReplacement e) as [[|]|]; try discriminate Hrep.
    reflexivity.
  - intros Hnan. rewrite !filter_In.
    destruct (JS.le (Equipment.wear e) (Fin 500)) eqn:Hle; [left; now split|].
    right. split; [assumption|].
    assert (H500 : Fin 500 <> NaN) by discriminate.
    rewrite (le_false_gt _ _ Hnan H500 Hle). reflexivity.
Qed.

Lemma wear_and_replacement_witness :
  In (sample_equipment "eq-1" "Main" true)
     (EquipmentService.getEquipmentByWear [sample_equipment "eq-1" "Main" true] (Fin 500))
  \/ In (sample_equipment "eq-1" "Main" true)
        (EquipmentService.getEquipmentNeedingReplacement
           [sample_equipment "eq-1" "Main" true]).
Proof.
  apply (proj2 (proj2 (wear_and_replacement [sample_equipment "eq-1" "Main" true]
                         (sample_equipment "eq-1" "Main" true)
                         (or_introl eq_refl)))).
  discriminate.
Defined.

(** ** Sample runs *)

Lemma location_required_iff_blank_witness :
  SessionService.createSession
    (CreateSessionDTO.mk "2024-06-01" (u3000 +:+ " ") (Fin 10) (Fin 15) Choppy "N"
                         (Fin 3) (Fin 3) None None)
  = throw "Location is required".
Proof.
  apply (proj2 (location_required_iff_blank
                  (CreateSessionDTO.mk "2024-06-01" (u3000 +:+ " ") (Fin 10) (Fin 15)
                                       Choppy "N" (Fin 3) (Fin 3) None None))).
  reflexivity.
Defined.

Lemma deleteSession_outcome_witness :
  Session.id (sample_session (Fin 3)) <> "s-2"
  /\ useSessions.sessions
       (snd (fst (run (apiClient backend_ok)
                    (useSessions.deleteSession "s-1"
                       (useSessions.mkState [sample_session (Fin 3)] false None))
                    (mkBrowser ∅ "/sessions")))) = [].
Proof.
  split; [discriminate|].
  pose proof (deleteSession_outcome (apiClient backend_ok) (mkBrowser ∅ "/sessions")
                "s-1" (useSessions.mkState [sample_session (Fin 3)] false None)) as H.
  cbv zeta in H. rewrite deleteSession_run in H. cbn in H.
  rewrite deleteSession_run. cbn. exact (proj1 H).
Defined.
